(** * The installer's [create] command and the install-config asset

  A shallow embedding of two Go sources of the installer:

  - [pkg/asset/installconfig] (type [InstallConfig] with its methods
  [Generate], [Files] and [Load]);
  - [cmd/openshift-install/create.go] ([runTargetCmd] and
  [destroyBootstrap]).

  Go values are modelled as follows.  A value of interface type [error]
  is an [option error] ([None] is [nil]); a pointer that may be [nil] is
  an [option]; a method with a pointer receiver takes the receiver and
  returns the updated receiver next to its results; [panic] is a
  separate outcome, never an error value.  Logging, sleeping and the
  calls to the cluster are effects recorded in a trace. *)

From Stdlib Require Import String Ascii List ZArith NArith Bool Lia.
From Stdlib.Strings Require Import Byte.
Import ListNotations.

Local Open Scope string_scope.
Local Open Scope list_scope.

(* ================================================================== *)
(** ** Go errors *)
(* ================================================================== *)

Module Errors.

(** The error values that the two sources create or inspect. *)
Inductive error : Type :=
  | New (msg : string)                           (* errors.New, fmt.Errorf *)
  | ErrNotExist                                  (* os.ErrNotExist, syscall.ENOENT *)
  | PathError (op path : string) (err : error)   (* *os.PathError *)
  | ExitError (status : string) (stderr : string) (* *exec.ExitError and its Stderr *)
  | Wrap (cause : error) (msg : string).         (* errors.Wrap, errors.Wrapf *)

(** [err.Error()]. *)
Fixpoint Error (e : error) : string :=
  match e with
  | New msg => msg
  | ErrNotExist => "file does not exist"
  | PathError op path err => op ++ " " ++ path ++ ": " ++ Error err
  | ExitError status _ => status
  | Wrap cause msg => msg ++ ": " ++ Error cause
  end.

(** [errors.Cause]: strips every layer that implements [causer]. *)
Fixpoint Cause (e : error) : error :=
  match e with
  | Wrap cause _ => Cause cause
  | _ => e
  end.

(** [os.IsNotExist]: looks through one [*PathError] and compares with
  the not-exist sentinel. *)
Definition underlyingError (e : error) : error :=
  match e with
  | PathError _ _ err => err
  | _ => e
  end.

Definition IsNotExist (e : error) : bool :=
  match underlyingError e with
  | ErrNotExist => true
  | _ => false
  end.

(** The result of a call: it returns, or it panics. *)
Inductive outcome (A : Type) : Type :=
  | Returned (a : A)
  | Panicked (msg : string).
Arguments Returned {A} a.
Arguments Panicked {A} msg.

End Errors.
Export Errors.

(* ================================================================== *)
(** ** Package installconfig *)
(* ================================================================== *)

Module installconfig.

(** [asset.File]. *)
Record File : Type := mkFile {
  Filename : string;
  Data : list byte
  }.

Definition installConfigFilename : string := "install-config.yml".

(** [net.IPNet], as [parseCIDR] leaves it. *)
Record IPNet : Type := mkIPNet {
  IP : list Z;
  Mask : list Z
  }.

(** [parseCIDR("10.3.0.0/16")]. *)
Definition defaultServiceCIDR : IPNet :=
  {| IP := [10; 3; 0; 0]; Mask := [255; 255; 0; 0] |}%Z.
Definition defaultClusterCIDR : string := "10.2.0.0/16".
Definition defaultHostSubnetLength : Z := 9.

(** [types.MachinePool]; [Replicas] is a [*int64]. *)
Record MachinePool : Type := mkMachinePool {
  pool_Name : string;
  Replicas : option Z
  }.

Record Admin : Type := mkAdmin {
  Email : string;
  Password : string;
  SSHKey : string
  }.

Record ClusterNetwork : Type := mkClusterNetwork {
  CIDR : string;
  HostSubnetLength : Z
  }.

Record Networking : Type := mkNetworking {
  net_Type : string;
  ServiceCIDR : IPNet;
  ClusterNetworks : list ClusterNetwork
  }.

Section Asset.

(** The per-platform settings live in package [types], outside these
    sources; nothing below looks inside them. *)
Context {AWSPlatform OpenStackPlatform LibvirtPlatform : Type}.

(** [types.InstallConfig], with the embedded [Platform] flattened. *)
Record Config : Type := mkConfig {
  meta_Name : string;
  cfg_ClusterID : string;
  cfg_Admin : Admin;
  cfg_BaseDomain : string;
  cfg_Networking : Networking;
  Machines : list MachinePool;
  cfg_AWS : option AWSPlatform;
  cfg_OpenStack : option OpenStackPlatform;
  cfg_Libvirt : option LibvirtPlatform;
  cfg_PullSecret : string
  }.

(** The [platform] asset: one pointer per supported platform. *)
Record platform : Type := mkPlatform {
  AWS : option AWSPlatform;
  OpenStack : option OpenStackPlatform;
  Libvirt : option LibvirtPlatform
  }.

(** The dependency table handed to [Generate], read through
    [parents.Get]: the eight assets that [Dependencies] declares. *)
Record Parents : Type := mkParents {
  ClusterID : string;
  EmailAddress : string;
  dep_Password : string;
  Key : string;
  BaseDomain : string;
  ClusterName : string;
  PullSecret : string;
  Platform : platform
  }.

(** [type InstallConfig struct { Config *types.InstallConfig; File *asset.File }]. *)
Record InstallConfig : Type := mkInstallConfig {
  ic_Config : option Config;
  ic_File : option File
  }.

(** [&installconfig.InstallConfig{}]. *)
Definition empty : InstallConfig :=
  {| ic_Config := None; ic_File := None |}.

(** [yaml.Marshal] and [yaml.Unmarshal] of github.com/ghodss/yaml. *)
Variable Marshal : Config -> list byte + error.
Variable Unmarshal : list byte -> Config + error.

(** [asset.FileFetcher], reduced to the method [Load] calls.  A
    fetcher returns a file exactly when its error is [nil]. *)
Record FileFetcher : Type := mkFileFetcher {
  FetchByName : string -> File + error
  }.

Definition Dependencies : list string :=
  ["clusterID"; "emailAddress"; "password"; "sshPublicKey";
   "baseDomain"; "clusterName"; "pullSecret"; "platform"].

(** The literal assigned to [a.Config] before the platform switch. *)
Definition baseConfig (parents : Parents) : Config :=
  {| meta_Name := ClusterName parents;
     cfg_ClusterID := ClusterID parents;
     cfg_Admin := {| Email := EmailAddress parents;
                     Password := dep_Password parents;
                     SSHKey := Key parents |};
     cfg_BaseDomain := BaseDomain parents;
     cfg_Networking :=
       {| net_Type := "OpenshiftSDN";
          ServiceCIDR := defaultServiceCIDR;
          ClusterNetworks :=
            [ {| CIDR := defaultClusterCIDR;
                 HostSubnetLength := defaultHostSubnetLength |} ] |};
     Machines := [];
     cfg_AWS := None;
     cfg_OpenStack := None;
     cfg_Libvirt := None;
     cfg_PullSecret := PullSecret parents |}.

Definition set_AWS (c : Config) (p : option AWSPlatform) : Config :=
  mkConfig (meta_Name c) (cfg_ClusterID c) (cfg_Admin c) (cfg_BaseDomain c)
           (cfg_Networking c) (Machines c) p (cfg_OpenStack c)
           (cfg_Libvirt c) (cfg_PullSecret c).

Definition set_OpenStack (c : Config) (p : option OpenStackPlatform) : Config :=
  mkConfig (meta_Name c) (cfg_ClusterID c) (cfg_Admin c) (cfg_BaseDomain c)
           (cfg_Networking c) (Machines c) (cfg_AWS c) p
           (cfg_Libvirt c) (cfg_PullSecret c).

Definition set_Libvirt (c : Config) (p : option LibvirtPlatform) : Config :=
  mkConfig (meta_Name c) (cfg_ClusterID c) (cfg_Admin c) (cfg_BaseDomain c)
           (cfg_Networking c) (Machines c) (cfg_AWS c) (cfg_OpenStack c)
           p (cfg_PullSecret c).

Definition set_Machines (c : Config) (m : list MachinePool) : Config :=
  mkConfig (meta_Name c) (cfg_ClusterID c) (cfg_Admin c) (cfg_BaseDomain c)
           (cfg_Networking c) m (cfg_AWS c) (cfg_OpenStack c)
           (cfg_Libvirt c) (cfg_PullSecret c).

(** The [switch] of [Generate]: the first non-nil platform wins.  It
    yields the updated config with [numberOfMasters] and
    [numberOfWorkers], or panics. *)
Definition platformSwitch (c : Config) (p : platform)
  : outcome (Config * Z * Z) :=
  match AWS p, OpenStack p, Libvirt p with
  | Some _, _, _ => Returned (set_AWS c (AWS p), 3, 3)%Z
  | None, Some _, _ => Returned (set_OpenStack c (OpenStack p), 3, 3)%Z
  | None, None, Some _ => Returned (set_Libvirt c (Libvirt p), 1, 1)%Z
  | None, None, None => Panicked "unknown platform type"
  end.

Definition machinePools (numberOfMasters numberOfWorkers : Z)
  : list MachinePool :=
  [ {| pool_Name := "master"; Replicas := Some numberOfMasters |};
    {| pool_Name := "worker"; Replicas := Some numberOfWorkers |} ].

(** [func (a *InstallConfig) Generate(parents asset.Parents) error].
    The first component is the receiver when the call ends, also when
    it ends in a panic. *)
Definition Generate (a : InstallConfig) (parents : Parents)
  : InstallConfig * outcome (option error) :=
  let a1 := {| ic_Config := Some (baseConfig parents);
               ic_File := ic_File a |} in
  match platformSwitch (baseConfig parents) (Platform parents) with
  | Panicked msg => (a1, Panicked msg)
  | Returned (c, numberOfMasters, numberOfWorkers) =>
      let c' := set_Machines c (machinePools numberOfMasters numberOfWorkers) in
      let a2 := {| ic_Config := Some c'; ic_File := ic_File a |} in
      match Marshal c' with
      | inr err =>
          (a2, Returned (Some (Wrap err "failed to Marshal InstallConfig")))
      | inl data =>
          ({| ic_Config := Some c';
              ic_File := Some {| Filename := installConfigFilename;
                                 Data := data |} |},
           Returned None)
      end
  end.

(** [func (a *InstallConfig) Name() string]. *)
Definition Name (a : InstallConfig) : string := "Install Config".

(** [func (a *InstallConfig) Files() []*asset.File]. *)
Definition Files (a : InstallConfig) : list File :=
  match ic_File a with
  | Some f => [f]
  | None => []
  end.

(** [func (a *InstallConfig) Load(f asset.FileFetcher) (found bool, err error)]. *)
Definition Load (a : InstallConfig) (f : FileFetcher)
  : InstallConfig * (bool * option error) :=
  match FetchByName f installConfigFilename with
  | inr err =>
      if IsNotExist err then (a, (false, None))
      else (a, (false, Some err))
  | inl file =>
      match Unmarshal (Data file) with
      | inr err => (a, (false, Some (Wrap err "failed to unmarshal")))
      | inl config =>
          ({| ic_Config := Some config; ic_File := Some file |},
           (true, None))
      end
  end.

End Asset.

End installconfig.


(* ================================================================== *)
(** ** Go's [strings], as far as create.go uses it *)
(* ================================================================== *)

Module strings.

(** [strings.Split(s, sep)] for a separator of one byte: the pieces of
    [s] between the separators, [n + 1] of them for [n] separators. *)
Fixpoint Split (s : string) (sep : ascii) : list string :=
  match s with
  | EmptyString => [EmptyString]
  | String c rest =>
      if Ascii.eqb c sep then EmptyString :: Split rest sep
      else match Split rest sep with
           | chunk :: chunks => String c chunk :: chunks
           | [] => [String c EmptyString]
           end
  end.

Fixpoint TrimLeft (s : string) (cut : ascii) : string :=
  match s with
  | EmptyString => EmptyString
  | String c rest => if Ascii.eqb c cut then TrimLeft rest cut else s
  end.

Fixpoint TrimRight (s : string) (cut : ascii) : string :=
  match s with
  | EmptyString => EmptyString
  | String c rest =>
      match TrimRight rest cut with
      | EmptyString => if Ascii.eqb c cut then EmptyString else String c EmptyString
      | rest' => String c rest'
      end
  end.

(** [strings.Trim(s, cutset)] for a cutset of one byte. *)
Definition Trim (s : string) (cut : ascii) : string :=
  TrimRight (TrimLeft s cut) cut.

Definition colon : ascii := ":"%char.
Definition newline : ascii := Ascii.ascii_of_nat 10.

End strings.

(* ================================================================== *)
(** ** cmd/openshift-install/create.go *)
(* ================================================================== *)

Module create.

(** logrus levels used by the file. *)
Inductive Level : Type := DebugLevel | InfoLevel | WarningLevel | ErrorLevel.

(** [time.Duration]: nanoseconds. *)
Definition Second : Z := 1000000000.
Definition Minute : Z := 60 * Second.

(** *** runTargetCmd *)

Section RunTarget.

(** [asset.WritableAsset] values (pointers to assets), with [Name]. *)
Context {Asset : Type}.
Variable Name : Asset -> string.

(** Everything the calls below may read or change: the install
    directory, the asset store, the assets behind the pointers. *)
Context {Disk : Type}.

(** [setupFileHook(rootOpts.dir)], the [cleanup] it returns,
    [asset.NewStore(rootOpts.dir)], [assetStore.Fetch(a)] and
    [asset.PersistToFile(a, rootOpts.dir)]. *)
Variable setupFileHook : Disk -> Disk * option error.
Variable cleanup : Disk -> Disk.
Variable NewStore : Disk -> Disk * option error.
Variable Fetch : Asset -> Disk -> Disk * option error.
Variable PersistToFile : Asset -> Disk -> Disk * option error.

(** What the command does that can be observed from outside. *)
Inductive action : Type :=
  | DoFetch (a : Asset)
  | DoPersist (a : Asset)
  | DoLog (lvl : Level) (msg : string).

Record Run : Type := mkRun {
  disk : Disk;
  actions : list action    (* oldest first *)
}.

Definition act (x : action) (r : Run) : Run :=
  {| disk := disk r; actions := actions r ++ [x] |}.

Definition on_disk (f : Disk -> Disk * option error) (r : Run)
  : Run * option error :=
  let '(d, err) := f (disk r) in
  ({| disk := d; actions := actions r |}, err).

(** Lines 137-142: the fetch error is logged when its cause is an
    [*exec.ExitError] that captured output, then wrapped. *)
Definition wrapFetchError (a : Asset) (err : option error) (r : Run)
  : Run * option error :=
  match err with
  | Some e =>
      let r1 :=
        match Cause e with
        | ExitError _ stderr =>
            if (0 <? String.length stderr)%nat
            then act (DoLog ErrorLevel (strings.Trim stderr strings.newline)) r
            else r
        | _ => r
        end in
      (r1, Some (Wrap e ("failed to fetch " ++ Name a)))
  | None => (r, None)
  end.

(** The [for _, a := range targets] loop, lines 135-157. *)
Fixpoint fetchAll (targets : list Asset) (r : Run) : Run * option error :=
  match targets with
  | [] => (r, None)
  | a :: rest =>
      let '(r1, err0) := on_disk (Fetch a) (act (DoFetch a) r) in
      let '(r2, err) := wrapFetchError a err0 r1 in
      let '(r3, err2) := on_disk (PersistToFile a) (act (DoPersist a) r2) in
      match err2 with
      | Some e2 =>
          let err2' :=
            Wrap e2 ("failed to write asset (" ++ Name a ++ ") to disk") in
          match err with
          | Some e => (act (DoLog ErrorLevel (Error err2')) r3, Some e)
          | None => (r3, Some err2')
          end
      | None =>
          match err with
          | Some e => (r3, Some e)
          | None => fetchAll rest r3
          end
      end
  end.

(** The function that [runTargetCmd(targets...)] returns, run once. *)
Definition runTargetCmd (targets : list Asset) (r : Run) : Run * option error :=
  let '(r1, err) := on_disk setupFileHook r in
  match err with
  | Some e => (r1, Some (Wrap e "failed to setup logging hook"))
  | None =>
      let '(r2, err) := on_disk NewStore r1 in
      let '(r3, res) :=
        match err with
        | Some e => (r2, Some (Wrap e "failed to create asset store"))
        | None => fetchAll targets r2
        end in
      ({| disk := cleanup (disk r3); actions := actions r3 |}, res)
  end.

End RunTarget.


(** *** destroyBootstrap *)

Local Open Scope Z_scope.

(** [corev1.Event], the fields the file reads. *)
Record Event : Type := mkEvent {
  ev_Name : string;
  ev_Message : string
}.

(** The dynamic type of [watchEvent.Object]; pointers delivered by the
    watch decoder are not nil. *)
Inductive Object : Type :=
  | NoObject                          (* a nil interface value *)
  | CoreEvent (event : Event)         (* *corev1.Event *)
  | Status (message : string)         (* *metav1.Status *)
  | OtherObject (kind : string).      (* any other runtime.Object *)

(** [watch.EventType] is a string type. *)
Definition Added : string := "ADDED".
Definition Modified : string := "MODIFIED".
Definition Deleted : string := "DELETED".
Definition WatchError : string := "ERROR".

(** [watch.Event]. *)
Record WatchEvent : Type := mkWatchEvent {
  we_Type : string;
  we_Object : Object
}.

(** [context.Context]: its deadline, if it has one.  The cancel function
    of the API context is called by the poll itself and is kept in the
    poll's state. *)
Record Context : Type := mkContext {
  deadline : option Z
}.

Definition Background : Context := {| deadline := None |}.

(** [context.WithTimeout(parent, d)] at time [t]. *)
Definition WithTimeout (parent : Context) (d t : Z) : Context :=
  match deadline parent with
  | Some p => {| deadline := Some (Z.min p (t + d)) |}
  | None => {| deadline := Some (t + d) |}
  end.

(** Whether [ctx.Done()] is closed at time [t] through the deadline. *)
Definition expired (ctx : Context) (t : Z) : bool :=
  match deadline ctx with
  | Some d => (d <=? t)%Z
  | None => false
  end.

(** What can be observed of a run: log lines and calls that leave the
    process. *)
Inductive effect : Type :=
  | Log (lvl : Level) (msg : string)
  | QueryVersion                                   (* discovery.ServerVersion() *)
  | OpenWatch (sinceResourceVersion : string)      (* events.Watch(...) *)
  | Sleep (d : Z)                                  (* time.Sleep(d) *)
  | CallUntil (ctx : Context) (initialResourceVersion : string)
  | CallDestroy.                                   (* destroybootstrap.Destroy(...) *)

Record World : Type := mkWorld {
  now : Z;                      (* the clock, in nanoseconds *)
  trace : list (Z * effect);    (* oldest first, each with its time *)
  queries : nat;                (* version queries made so far *)
  watches : nat                 (* watch attempts made so far *)
}.

(** Computations over the world; [None] is a run that did not end
    within the fuel of its loops. *)
Definition R (A : Type) : Type := World -> option (A * World).

Definition ret {A : Type} (a : A) : R A := fun w => Some (a, w).

Definition bind {A B : Type} (c : R A) (k : A -> R B) : R B :=
  fun w => match c w with
           | Some (a, w') => k a w'
           | None => None
           end.

Definition outOfFuel {A : Type} : R A := fun _ => None.

Notation "x <- c ;; k" := (bind c (fun x => k))
  (at level 61, c at next level, right associativity).
Notation "c ;;; k" := (bind c (fun _ => k))
  (at level 61, right associativity).

Definition clock : R Z := fun w => Some (now w, w).

Definition emit (e : effect) : R unit :=
  fun w => Some (tt, {| now := now w; trace := trace w ++ [(now w, e)];
                        queries := queries w; watches := watches w |}).

Definition elapse (d : Z) : R unit :=
  fun w => Some (tt, {| now := now w + d; trace := trace w;
                        queries := queries w; watches := watches w |}).

Definition log (lvl : Level) (msg : string) : R unit := emit (Log lvl msg).

(** [time.Sleep(d)]. *)
Definition sleep (d : Z) : R unit := emit (Sleep d) ;;; elapse d.

Section DestroyBootstrap.

(** [watch.Interface]. *)
Context {Watcher : Type}.

(** The cluster and the machine as the command meets them.  The [k]-th
    version query and the [k]-th attempt to open a watch each take some
    time and give an answer.  [timerFirst] is the part of the Go
    scheduler: whether, when a timer and the deadline of a context fall
    on the same instant, a [select] on both is served by the timer while
    the [Done] channel is still open. *)
Record Cluster : Type := mkCluster {
  fileHook : option error;              (* setupFileHook *)
  kubeconfig : option error;            (* clientcmd.BuildConfigFromFlags *)
  newClient : option error;             (* kubernetes.NewForConfig *)
  ServerVersion : nat -> N * (string + error);
  Watch : nat -> string -> N * (option Watcher * option error);
  Destroy : option error;
  timerFirst : bool
}.

Variable cluster : Cluster.

(** [discovery.ServerVersion()]. *)
Definition serverVersion : R (string + error) :=
  fun w =>
    let '(took, answer) := ServerVersion cluster (queries w) in
    Some (answer,
          {| now := now w + Z.of_N took;
             trace := trace w ++ [(now w, QueryVersion)];
             queries := S (queries w); watches := watches w |}).

(** [events.Watch(metav1.ListOptions{ResourceVersion: rv})]. *)
Definition eventsWatch (rv : string) : R (option Watcher * option error) :=
  fun w =>
    let '(took, answer) := Watch cluster (watches w) rv in
    Some (answer,
          {| now := now w + Z.of_N took;
             trace := trace w ++ [(now w, OpenWatch rv)];
             queries := queries w; watches := S (watches w) |}).

(** The variables that the poll closure captures, and whether it has
    called [cancel]. *)
Record Poll : Type := mkPoll {
  silenceRemaining : Z;
  previousErrorSuffix : string;
  cancelled : bool
}.

Definition logDownsample : Z := 15.

Definition pollStart : Poll :=
  {| silenceRemaining := logDownsample; previousErrorSuffix := "";
     cancelled := false |}.

(** Lines 199-200: [chunks[len(chunks)-1]] of the error text split at
    the colons. *)
Definition errorSuffix (err : error) : string :=
  let chunks := strings.Split (Error err) strings.colon in
  last chunks "".

(** Lines 198-208: what the closure does with a failed query.  The
    boolean tells whether it logs. *)
Definition onQueryError (p : Poll) (err : error) : Poll * bool :=
  let silence := (silenceRemaining p - 1)%Z in
  if negb (String.eqb (previousErrorSuffix p) (errorSuffix err)) then
    ({| silenceRemaining := logDownsample;
        previousErrorSuffix := errorSuffix err;
        cancelled := cancelled p |}, true)
  else if (silence =? 0)%Z then
    ({| silenceRemaining := logDownsample;
        previousErrorSuffix := previousErrorSuffix p;
        cancelled := cancelled p |}, true)
  else
    ({| silenceRemaining := silence;
        previousErrorSuffix := previousErrorSuffix p;
        cancelled := cancelled p |}, false).

(** The closure given to [wait.Until], lines 192-210. *)
Definition pollAPI (p : Poll) : R Poll :=
  answer <- serverVersion ;;
  match answer with
  | inl version =>
      log InfoLevel ("API " ++ version ++ " up") ;;;
      ret {| silenceRemaining := silenceRemaining p;
             previousErrorSuffix := previousErrorSuffix p;
             cancelled := true |}
  | inr err =>
      let '(p', logged) := onQueryError p err in
      if logged
      then log DebugLevel ("Still waiting for the Kubernetes API: " ++ Error err) ;;;
           ret p'
      else ret p'
  end.

(** [wait.Until(f, period, stopCh)] of k8s.io/apimachinery, with the
    stop channel of a context that [f] may cancel: [f] runs unless the
    channel is closed; then a timer of [period] starts and the loop
    waits for the timer or the channel, whichever comes first.  When
    both come at the same instant and the timer is served, the check at
    the head of the loop finds the channel still open and [f] runs once
    more; the channel is closed when that call is over. *)
Fixpoint waitUntil (fuel : nat) (f : Poll -> R Poll) (period : Z)
    (ctx : Context) (p : Poll) : R Poll :=
  match fuel with
  | O => outOfFuel
  | S fuel' =>
      t <- clock ;;
      if cancelled p || expired ctx t then ret p
      else
        p' <- f p ;;
        t' <- clock ;;
        if cancelled p' || expired ctx t' then ret p'
        else if expired ctx (t' + period)
        then match deadline ctx with
             | Some d =>
                 elapse (d - t') ;;;
                 if (d =? t' + period) && timerFirst cluster
                 then f p'
                 else ret p'
             | None => ret p'
             end
        else elapse period ;;; waitUntil fuel' f period ctx p'
  end.

Definition apiTimeout : Z := 30 * Minute.
Definition eventTimeout : Z := 30 * Minute.

(** Lines 182-210: the wait for the Kubernetes API. *)
Definition waitForAPI (fuel : nat) (ctx : Context) : R Poll :=
  log InfoLevel "Waiting 30m0s for the Kubernetes API..." ;;;
  t <- clock ;;
  let apiContext := WithTimeout ctx apiTimeout t in
  waitUntil fuel pollAPI (2 * Second) apiContext pollStart.

(** The stream opener given to [Until], lines 221-237. *)
Fixpoint openWatch (fuel : nat) (eventContext : Context)
    (sinceResourceVersion : string) : R (option Watcher * option error) :=
  match fuel with
  | O => outOfFuel
  | S fuel' =>
      answer <- eventsWatch sinceResourceVersion ;;
      let '(watcher, err) := answer in
      match err with
      | None => ret (watcher, None)
      | Some e =>
          t <- clock ;;
          if expired eventContext t then ret (watcher, Some e)
          else
            log WarningLevel ("Failed to connect events watcher: " ++ Error e) ;;;
            sleep (2 * Second) ;;;
            openWatch fuel' eventContext sinceResourceVersion
      end
  end.

(** The condition given to [Until], lines 238-255. *)
Definition bootstrapComplete (watchEvent : WatchEvent) : R (bool * option error) :=
  match we_Object watchEvent with
  | CoreEvent event =>
      if String.eqb (we_Type watchEvent) WatchError then
        log DebugLevel ("error " ++ ev_Name event ++ ": " ++ ev_Message event) ;;;
        ret (false, None)
      else if negb (String.eqb (we_Type watchEvent) Added) then
        ret (false, None)
      else
        log DebugLevel ("added " ++ ev_Name event ++ ": " ++ ev_Message event) ;;;
        ret (String.eqb (ev_Name event) "bootstrap-complete", None)
  | _ => ret (false, None)
  end.

Definition WatcherFunc : Type := string -> R (option Watcher * option error).
Definition ConditionFunc : Type := WatchEvent -> R (bool * option error).

(** [Until] of this package (watch.go), which is not among the sources:
    it is a parameter of the model. *)
Variable Until :
  Context -> string -> WatcherFunc -> ConditionFunc ->
  R (option WatchEvent * option error).

(** Lines 212-259: the wait for the bootstrap-complete event. *)
Definition waitForEvent (fuel : nat) (ctx : Context) : R (option error) :=
  log InfoLevel "Waiting 30m0s for the bootstrap-complete event..." ;;;
  t <- clock ;;
  let eventContext := WithTimeout ctx eventTimeout t in
  emit (CallUntil eventContext "") ;;;
  answer <- Until eventContext "" (openWatch fuel eventContext) bootstrapComplete ;;
  match snd answer with
  | Some err => ret (Some (Wrap err "waiting for bootstrap-complete"))
  | None => ret None
  end.

(** [func destroyBootstrap(ctx context.Context, directory string) (err error)]. *)
Definition destroyBootstrap (fuel : nat) (ctx : Context) : R (option error) :=
  match fileHook cluster with
  | Some err => ret (Some (Wrap err "failed to setup logging hook"))
  | None =>
  match kubeconfig cluster with
  | Some err => ret (Some (Wrap err "loading kubeconfig"))
  | None =>
  match newClient cluster with
  | Some err => ret (Some (Wrap err "creating a Kubernetes client"))
  | None =>
      waitForAPI fuel ctx ;;;
      err <- waitForEvent fuel ctx ;;
      match err with
      | Some e => ret (Some e)
      | None =>
          log InfoLevel "Destroying the bootstrap resources..." ;;;
          emit CallDestroy ;;;
          ret (Destroy cluster)
      end
  end end end.

End DestroyBootstrap.

(** [wait.ErrWaitTimeout]. *)
Definition ErrWaitTimeout : error := New "timed out waiting for the condition".

(** Modelled from the spec: [Until], the resumable event synchronizer of
    this package, whose source file is not among the sources.  A stream
    is the list of events it delivers before it closes, each with its
    position.  Section 4.4: the cursor starts empty; the stream is
    opened with the cursor; a failure to open (the opener has retried
    up to the deadline) is a timeout error; events are consumed in
    order, the cursor advancing to each before the predicate sees it;
    the first event with done=true ends the wait; a closed stream is
    opened again from the cursor; an expired deadline is a timeout
    error. *)
Fixpoint consume (condition : ConditionFunc)
    (stream : list (string * WatchEvent)) (cursor : string)
  : R (string + (option WatchEvent * option error)) :=
  match stream with
  | [] => ret (inl cursor)
  | (position, event) :: stream' =>
      answer <- condition event ;;
      match answer with
      | (_, Some err) => ret (inr (Some event, Some err))
      | (true, None) => ret (inr (Some event, None))
      | (false, None) => consume condition stream' position
      end
  end.

Fixpoint specUntil (fuel : nat) (ctx : Context) (cursor : string)
    (watcherFunc : @WatcherFunc (list (string * WatchEvent)))
    (condition : ConditionFunc) : R (option WatchEvent * option error) :=
  match fuel with
  | O => outOfFuel
  | S fuel' =>
      t <- clock ;;
      if expired ctx t then ret (None, Some ErrWaitTimeout)
      else
        opened <- watcherFunc cursor ;;
        match opened with
        | (Some stream, None) =>
            r <- consume condition stream cursor ;;
            match r with
            | inl cursor' => specUntil fuel' ctx cursor' watcherFunc condition
            | inr result => ret result
            end
        | _ => ret (None, Some ErrWaitTimeout)
        end
  end.

End create.

(* ================================================================== *)
(** ** create.go: the end of the cluster target *)
(* ================================================================== *)

Module create_more.

Import create.

Local Open Scope Z_scope.

Section PostRun.

Context {Watcher : Type}.
Variable cluster : @Cluster Watcher.

Variable Until :
  Context -> string -> @WatcherFunc Watcher -> ConditionFunc ->
  R (option WatchEvent * option error).

(** [filepath.Abs], [filepath.Join] and [ioutil.ReadFile], as the
    command meets them. *)
Variable Abs : string -> string + error.
Variable Join : list string -> string.
Variable ReadFile : string -> string + error.

(** [func logComplete(directory string) error]. *)
Definition logComplete (directory : string) : R (option error) :=
  match Abs directory with
  | inr err => ret (Some err)
  | inl absDir =>
      let kubeconfig := Join [absDir; "auth"; "kubeconfig"] in
      let pwFile := Join [absDir; "auth"; "kubeadmin-password"] in
      match ReadFile pwFile with
      | inr err => ret (Some err)
      | inl pw =>
          log InfoLevel ("kubeadmin user password: " ++ pw) ;;;
          log InfoLevel
            ("Install complete! The kubeconfig is located here: " ++ kubeconfig) ;;;
          ret None
      end
  end.

(** The [PostRunE] of [clusterTarget], lines 91-97, with
    [rootOpts.dir] as [directory]. *)
Definition clusterPostRun (fuel : nat) (directory : string) : R (option error) :=
  err <- destroyBootstrap cluster Until fuel Background ;;
  match err with
  | Some e => ret (Some e)
  | None => logComplete directory
  end.

End PostRun.

End create_more.

(* ================================================================== *)
(** * The vocabulary of the properties *)
(* ================================================================== *)

Module installconfig_terms.

Import installconfig.

Section Terms.

Context {AWSPlatform OpenStackPlatform LibvirtPlatform : Type}.

Variable Unmarshal :
  list byte -> @Config AWSPlatform OpenStackPlatform LibvirtPlatform + error.

(** No install-config.yml: the fetch fails and [os.IsNotExist] holds of
    its error. *)
Definition absent (f : FileFetcher) : Prop :=
  exists e, FetchByName f installConfigFilename = inr e /\ IsNotExist e = true.

(** Prior state that is there but broken: the fetch fails for another
    reason, or the bytes do not parse.  The error is the one [Load] is
    to surface. *)
Definition malformed (f : FileFetcher) (reported : error) : Prop :=
  (FetchByName f installConfigFilename = inr reported
   /\ IsNotExist reported = false)
  \/ (exists file e,
        FetchByName f installConfigFilename = inl file
        /\ Unmarshal (Data file) = inr e
        /\ reported = Wrap e "failed to unmarshal").

(** The replica count that goes with a platform asset: the first
    non-nil pointer among AWS, OpenStack and Libvirt decides. *)
Definition replicasFor
    (p : @platform AWSPlatform OpenStackPlatform LibvirtPlatform) : Z :=
  match AWS p, OpenStack p with
  | None, None => 1%Z
  | _, _ => 3%Z
  end.

(** None of the three platform pointers is set. *)
Definition unknownPlatform
    (parents : @Parents AWSPlatform OpenStackPlatform LibvirtPlatform) : Prop :=
  AWS (Platform parents) = None
  /\ OpenStack (Platform parents) = None
  /\ Libvirt (Platform parents) = None.

End Terms.

End installconfig_terms.

Module strings_terms.

(** [strings.Join] for a separator of one byte. *)
Fixpoint Join (chunks : list string) (sep : ascii) : string :=
  match chunks with
  | [] => EmptyString
  | [chunk] => chunk
  | chunk :: rest => (chunk ++ String sep (Join rest sep))%string
  end.

(** The byte [sep] does not occur in [s]. *)
Definition free_of (sep : ascii) (s : string) : Prop :=
  ~ In sep (list_ascii_of_string s).

End strings_terms.

Module create_terms.

Import create.

Local Open Scope Z_scope.

(** What line 139 logs for a fetch error: the captured output of the
    command behind it, without the newlines around it, if there is any. *)
Definition exitOutput {Asset : Type} (e : error) : list (@action Asset) :=
  match Cause e with
  | ExitError _ stderr =>
      if (0 <? String.length stderr)%nat
      then [DoLog ErrorLevel (strings.Trim stderr strings.newline)]
      else []
  | _ => []
  end.

(** The effects of a trace, without their times. *)
Definition effects (w : World) : list effect := map snd (trace w).

(** The effects of one moment. *)
Definition stamped (t : Z) (effects : list effect) : list (Z * effect) :=
  map (fun e => (t, e)) effects.

(** An Added event whose object is a core Event named exactly
    "bootstrap-complete". *)
Definition isBootstrapComplete (watchEvent : WatchEvent) : Prop :=
  we_Type watchEvent = Added
  /\ exists event,
       we_Object watchEvent = CoreEvent event
       /\ ev_Name event = "bootstrap-complete".

(** The line that the condition logs for an Error event. *)
Definition errorLine (watchEvent : WatchEvent) : list effect :=
  match we_Object watchEvent with
  | CoreEvent event =>
      [Log DebugLevel ("error " ++ ev_Name event ++ ": " ++ ev_Message event)]
  | _ => []
  end.

(** The line that the poll logs when a version query succeeds. *)
Definition apiUp (version : string) : effect :=
  Log InfoLevel ("API " ++ version ++ " up").

(** The world after a line was logged. *)
Definition logged (w : World) (lvl : Level) (msg : string) : World :=
  {| now := now w; trace := trace w ++ [(now w, Log lvl msg)];
     queries := queries w; watches := watches w |}.

(** The world with the clock moved ahead. *)
Definition ahead (w : World) (d : Z) : World :=
  {| now := now w + d; trace := trace w;
     queries := queries w; watches := watches w |}.

(** The world after an attempt to open the watch that took [took]. *)
Definition attempted (w : World) (rv : string) (took : N) : World :=
  {| now := now w + Z.of_N took;
     trace := trace w ++ [(now w, OpenWatch rv)];
     queries := queries w;
     watches := S (watches w) |}.

(** The world after the warning and the sleep that follow a failed
    attempt. *)
Definition backedOff (w : World) (e : error) : World :=
  {| now := now w + 2 * Second;
     trace := (trace w
               ++ [(now w, Log WarningLevel
                             ("Failed to connect events watcher: " ++ Error e))])
              ++ [(now w, Sleep (2 * Second))];
     queries := queries w;
     watches := watches w |}.

(** The world in which [Until] is entered. *)
Definition enteringUntil (w : World) (eventContext : Context) : World :=
  {| now := now w;
     trace := (trace w
               ++ [(now w, Log InfoLevel
                             "Waiting 30m0s for the bootstrap-complete event...")])
              ++ [(now w, CallUntil eventContext "")];
     queries := queries w; watches := watches w |}.

(** The rule of the log of the poll, counted from a signature logged
    last: a failure is logged when its signature differs from the one
    logged last (the empty string before anything was logged, which is
    what the closure starts with), or when it is the 15th in a row
    since the last log line; [silent] counts the failures since
    then. *)
Fixpoint stillWaitingLogged (previous : string) (silent : nat)
    (signatures : list string) : list bool :=
  match signatures with
  | [] => []
  | s :: rest =>
      if negb (String.eqb s previous) || Nat.eqb (S silent) 15
      then true :: stillWaitingLogged s 0 rest
      else false :: stillWaitingLogged previous (S silent) rest
  end.

(** The same rule when it is told apart whether a line was logged
    before at all, as the claim and the specification word it ("on
    first occurrence, on change, or every Nth repeat"): with no line
    logged before, every signature is new. *)
Fixpoint claimedLogged (previous : option string) (silent : nat)
    (signatures : list string) : list bool :=
  match signatures with
  | [] => []
  | s :: rest =>
      let changed :=
        match previous with
        | None => true
        | Some s0 => negb (String.eqb s s0)
        end in
      if changed || Nat.eqb (S silent) 15
      then true :: claimedLogged (Some s) 0 rest
      else false :: claimedLogged previous (S silent) rest
  end.

(** What a failed query leaves in the trace. *)
Definition failedQuery (e : error) (logged : bool) : list effect :=
  QueryVersion
  :: (if logged
      then [Log DebugLevel ("Still waiting for the Kubernetes API: " ++ Error e)]
      else []).

(** The trace of a row of failed queries. *)
Fixpoint pollEffects (errs : list error) (logged : list bool) : list effect :=
  match errs, logged with
  | e :: errs', b :: logged' => failedQuery e b ++ pollEffects errs' logged'
  | _, _ => []
  end.

(** The answer and the trace of the query that succeeds, if one does. *)
Definition success (up : option string) : list (string + error) :=
  match up with
  | Some version => [inl version]
  | None => []
  end.

Definition successEffects (up : option string) : list effect :=
  match up with
  | Some version => [QueryVersion; apiUp version]
  | None => []
  end.

(** The closure's variables against the words of the claim. *)
Definition tracks (p : Poll) (previous : string) (silent : nat) : Prop :=
  previousErrorSuffix p = previous
  /\ silenceRemaining p = logDownsample - Z.of_nat silent
  /\ (silent < 15)%nat.

Section Cluster.

Context {Watcher : Type}.
Variable cluster : @Cluster Watcher.

(** The answers to [count] version queries from the [first] on. *)
Definition answers (first count : nat) : list (string + error) :=
  map (fun k => snd (ServerVersion cluster k)) (seq first count).

(** What [destroyBootstrap] does with the answer of [Until]. *)
Definition afterUntil
    (answer : option ((option WatchEvent * option error) * World))
  : option (option error * World) :=
  match answer with
  | None => None
  | Some ((_, Some err), w) =>
      Some (Some (Wrap err "waiting for bootstrap-complete"), w)
  | Some ((_, None), w) =>
      Some (Destroy cluster,
            {| now := now w;
               trace := (trace w
                         ++ [(now w, Log InfoLevel
                                       "Destroying the bootstrap resources...")])
                        ++ [(now w, CallDestroy)];
               queries := queries w; watches := watches w |})
  end.

End Cluster.

End create_terms.

Module more_terms.

Import create.

Local Open Scope Z_scope.

(** The actions of a run that touch an asset, without the log lines. *)
Definition isLogAction {Asset : Type} (x : @action Asset) : bool :=
  match x with
  | DoLog _ _ => true
  | _ => false
  end.

Definition touched {Asset : Type} (acts : list (@action Asset))
  : list (@action Asset) :=
  filter (fun x => negb (isLogAction x)) acts.

(** Each asset of the list fetched and then persisted, in order. *)
Definition fetchedAndPersisted {Asset : Type} (l : list Asset)
  : list (@action Asset) :=
  flat_map (fun a => [DoFetch a; DoPersist a]) l.

(** The first and the last byte of a text, and a byte repeated. *)
Definition firstByte (s : string) : option ascii :=
  match s with
  | EmptyString => None
  | String c _ => Some c
  end.

Fixpoint lastByte (s : string) : option ascii :=
  match s with
  | EmptyString => None
  | String c rest =>
      match rest with
      | EmptyString => Some c
      | _ => lastByte rest
      end
  end.

Fixpoint repeated (c : ascii) (n : nat) : string :=
  match n with
  | O => EmptyString
  | S n' => String c (repeated c n')
  end.

(** The countdown of the poll is between 1 and [logDownsample]. *)
Definition countdownInRange (p : Poll) : Prop :=
  1 <= silenceRemaining p <= logDownsample.

(** No [limit] failures in a row go without a line; [run] failures have
    gone without one so far. *)
Fixpoint neverSilentFor (limit run : nat) (logged : list bool) : Prop :=
  match logged with
  | [] => True
  | true :: rest => neverSilentFor limit 0 rest
  | false :: rest => (S run < limit)%nat /\ neverSilentFor limit (S run) rest
  end.

(** A trace that is empty or begins with a version query. *)
Definition beginsWithQuery (tr : list effect) : Prop :=
  match tr with
  | [] => True
  | e :: _ => e = QueryVersion
  end.



Section Cluster.

Context {Watcher : Type}.
Variable cluster : @Cluster Watcher.

(** The time that [count] version queries take, from the [first] on. *)
Fixpoint pollTime (first count : nat) : Z :=
  match count with
  | O => 0
  | S count' =>
      Z.of_N (fst (ServerVersion cluster first)) + pollTime (S first) count'
  end.

(** The time that [count] attempts to open the watch take, from the
    [first] on. *)
Fixpoint watchTime (rv : string) (first count : nat) : Z :=
  match count with
  | O => 0
  | S count' =>
      Z.of_N (fst (Watch cluster first rv)) + watchTime rv (S first) count'
  end.

End Cluster.

End more_terms.

(* ================================================================== *)
(** * Inputs used in the examples *)
(* ================================================================== *)

Module inputs.

Import installconfig.

(** A YAML encoder that accepts every config, one that rejects every
    config, and a decoder that rejects the empty document only. *)
Definition marshalOK : @Config unit unit unit -> list byte + error :=
  fun c => inl (list_byte_of_string (meta_Name c)).

Definition marshalBroken : @Config unit unit unit -> list byte + error :=
  fun _ => inr (New "yaml: unsupported value").

Definition someParents (p : @platform unit unit unit)
  : @Parents unit unit unit :=
  {| ClusterID := "c1"; EmailAddress := "a@b.c"; dep_Password := "pw";
     Key := "ssh-rsa AAAA"; BaseDomain := "example.com";
     ClusterName := "test"; PullSecret := "{}"; Platform := p |}.

Definition noPlatform : @platform unit unit unit := mkPlatform None None None.
Definition onAWS : @platform unit unit unit := mkPlatform (Some tt) None None.
Definition onOpenStack : @platform unit unit unit := mkPlatform None (Some tt) None.
Definition onLibvirt : @platform unit unit unit := mkPlatform None None (Some tt).

Definition unmarshalNonEmpty : list byte -> @Config unit unit unit + error :=
  fun data =>
    match data with
    | [] => inr (New "EOF")
    | _ => inl (baseConfig (someParents onAWS))
    end.

(** An install directory without install-config.yml, one whose file
    cannot be read, and one that holds the given bytes. *)
Definition emptyDir : FileFetcher :=
  {| FetchByName := fun name => inr (PathError "open" name ErrNotExist) |}.

Definition unreadableDir : FileFetcher :=
  {| FetchByName :=
       fun name => inr (PathError "open" name (New "permission denied")) |}.

Definition dirWith (data : list byte) : FileFetcher :=
  {| FetchByName :=
       fun name =>
         if String.eqb name installConfigFilename
         then inl {| Filename := name; Data := data |}
         else inr (PathError "open" name ErrNotExist) |}.

End inputs.

Module runTargetCmd_inputs.

Import create.

(** A run of the cluster target in which terraform fails for the
    Cluster asset and its state cannot be written either.  Assets are
    known by their names; the disk is the list of assets written. *)
Definition tfOutput : string :=
  String strings.newline ("Error: quota exceeded" ++ String strings.newline "").

Definition tfError : error :=
  Wrap (ExitError "exit status 1" tfOutput) "failed to generate asset".

Definition writeError : error :=
  PathError "open" "terraform.tfstate" (New "permission denied").

Definition hookOK (d : list string) : list string * option error := (d, None).

Definition cleanupNothing (d : list string) : list string := d.

Definition storeOK (d : list string) : list string * option error := (d, None).

Definition fetchCluster (a : string) (d : list string)
  : list string * option error :=
  if String.eqb a "Cluster" then (d, Some tfError) else (d, None).

Definition persistCluster (a : string) (d : list string)
  : list string * option error :=
  if String.eqb a "Cluster" then (d, Some writeError) else (d ++ [a], None).

Definition start : @Run string (list string) := {| disk := []; actions := [] |}.

End runTargetCmd_inputs.

Module destroyBootstrap_inputs.

Import create.

Local Open Scope Z_scope.

(** A machine at time 0 and a cluster whose API server never comes up:
    every version query is refused after 58 seconds, every attempt to
    open the watch after [watchTook] nanoseconds. *)
Definition world0 : World :=
  {| now := 0; trace := []; queries := 0; watches := 0 |}.

Definition refused : error :=
  New "Get https://api.test:6443/version: dial tcp 10.0.0.1:6443: connect: connection refused".

Definition watchRefused : error :=
  New "Get https://api.test:6443/api/v1/namespaces/kube-system/events: dial tcp 10.0.0.1:6443: connect: connection refused".

Definition downCluster (watchTook : N)
  : @Cluster (list (string * WatchEvent)) :=
  {| fileHook := None; kubeconfig := None; newClient := None;
     ServerVersion := fun _ => (58000000000%N, inr refused);
     Watch := fun _ _ => (watchTook, (None, Some watchRefused));
     Destroy := None; timerFirst := false |}.

(** The Error event by which the API server says that a resource
    version is too old: its object is a Status. *)
Definition tooOld : WatchEvent :=
  {| we_Type := WatchError;
     we_Object := Status "too old resource version: 1 (2)" |}.

(** An Error event that carries a core Event. *)
Definition errorOfEvent : WatchEvent :=
  {| we_Type := WatchError;
     we_Object := CoreEvent {| ev_Name := "bootstrap-failed";
                               ev_Message := "the control plane is gone" |} |}.

Definition isInfo (e : effect) : bool :=
  match e with
  | Log InfoLevel _ => true
  | _ => false
  end.

Definition isCallUntil (e : Z * effect) : bool :=
  match snd e with
  | CallUntil _ _ => true
  | _ => false
  end.

Definition fiveSeconds : Context := {| deadline := Some (5 * Second) |}.

(** A cluster that comes up: 17 version queries are refused, 3 more
    get no answer, the next one succeeds; every query takes a second.
    The watch opens at once and delivers two events before it closes. *)
Definition noAnswer : error :=
  New "Get https://api.test:6443/version: EOF".

Definition bootstrapEvents : list (string * WatchEvent) :=
  [ ("101", {| we_Type := Added;
               we_Object := CoreEvent {| ev_Name := "bootstrap-success";
                                         ev_Message := "pods are running" |} |});
    ("102", {| we_Type := Added;
               we_Object := CoreEvent {| ev_Name := "bootstrap-complete";
                                         ev_Message := "cluster bootstrapping has completed" |} |}) ].

Definition comingUp : @Cluster (list (string * WatchEvent)) :=
  {| fileHook := None; kubeconfig := None; newClient := None;
     ServerVersion :=
       fun k =>
         (1000000000%N,
          if (k <? 17)%nat then inr refused
          else if (k <? 20)%nat then inr noAnswer
          else inl "v1.11.0+d4cacc0");
     Watch := fun _ _ => (0%N, (Some bootstrapEvents, None));
     Destroy := None; timerFirst := false |}.

Definition isLog (e : Z * effect) : bool :=
  match snd e with
  | Log _ _ => true
  | _ => false
  end.

(** A cluster behind a proxy that answers every version query after a
    second with an error whose text ends in a colon. *)
Definition proxyError : error := New "proxy error:".

Definition behindProxy : @Cluster (list (string * WatchEvent)) :=
  {| fileHook := None; kubeconfig := None; newClient := None;
     ServerVersion := fun _ => (1000000000%N, inr proxyError);
     Watch := fun _ _ => (0%N, (None, Some watchRefused));
     Destroy := None; timerFirst := false |}.

(** Times in seconds. *)
Definition inSeconds (tr : list (Z * effect)) : list (Z * effect) :=
  map (fun e => (fst e / Second, snd e)) tr.

End destroyBootstrap_inputs.

Module more_inputs.

Import create.

Local Open Scope Z_scope.

(** A store that resolves every asset and a disk that takes every
    asset. *)
Definition fetchOK (a : string) (d : list string) : list string * option error :=
  (d, None).

Definition persistOK (a : string) (d : list string) : list string * option error :=
  (d ++ [a], None).

(** An install directory with its absolute path and its password file;
    paths are joined with slashes. *)
Definition absHome (directory : string) : string + error :=
  inl ("/home/core/" ++ directory)%string.

Definition joinSlash (elem : list string) : string :=
  String.concat "/" elem.

Definition readPassword (path : string) : string + error :=
  if String.eqb path "/home/core/cluster/auth/kubeadmin-password"
  then inl "5char-5char-5char-5char"
  else inr (PathError "open" path ErrNotExist).

(** The config that [Generate] builds on AWS, and a decoder that gives
    it back for every document but the empty one. *)
Definition awsConfig : @installconfig.Config unit unit unit :=
  installconfig.set_Machines
    (installconfig.set_AWS
       (installconfig.baseConfig (inputs.someParents inputs.onAWS)) (Some tt))
    (installconfig.machinePools 3 3).

Definition unmarshalAWS
  : list byte -> @installconfig.Config unit unit unit + error :=
  fun data =>
    match data with
    | [] => inr (New "EOF")
    | _ => inl awsConfig
    end.

(** A platform asset with two platforms set. *)
Definition onAWSandLibvirt : @installconfig.platform unit unit unit :=
  installconfig.mkPlatform (Some tt) None (Some tt).

(** A cluster that refuses every version query at once, and the
    cluster that never comes up, each with the scheduler's answer at a
    tie. *)
Definition refusingAtOnce (timerFirst : bool)
  : @Cluster (list (string * WatchEvent)) :=
  {| fileHook := None; kubeconfig := None; newClient := None;
     ServerVersion := fun _ => (0%N, inr destroyBootstrap_inputs.refused);
     Watch := fun _ _ =>
                (0%N, (None, Some destroyBootstrap_inputs.watchRefused));
     Destroy := None; timerFirst := timerFirst |}.

Definition downClusterTimerFirst : @Cluster (list (string * WatchEvent)) :=
  {| fileHook := None; kubeconfig := None; newClient := None;
     ServerVersion :=
       fun _ => (58000000000%N, inr destroyBootstrap_inputs.refused);
     Watch := fun _ _ =>
                (298000000000%N, (None, Some destroyBootstrap_inputs.watchRefused));
     Destroy := None; timerFirst := true |}.

(** The refusal of another address, and a context that ends after ten
    minutes. *)
Definition refusedElsewhere : error :=
  New "Get https://api.test:6443/version: dial tcp 10.0.0.2:6443: connect: connection refused".

Definition tenMinutes : Context := {| deadline := Some (10 * Minute) |}.

End more_inputs.

(* ================================================================== *)
(** * Properties of the install-config asset *)
(* ================================================================== *)

Module installconfig_facts.

Import installconfig installconfig_terms.

Section Facts.

Context {AWSPlatform OpenStackPlatform LibvirtPlatform : Type}.

Local Abbreviation Config :=
  (@Config AWSPlatform OpenStackPlatform LibvirtPlatform).
Local Abbreviation InstallConfig :=
  (@InstallConfig AWSPlatform OpenStackPlatform LibvirtPlatform).
Local Abbreviation Parents :=
  (@Parents AWSPlatform OpenStackPlatform LibvirtPlatform).

Variable Marshal : Config -> list byte + error.
Variable Unmarshal : list byte -> Config + error.

(** With one of the three pointers set, the switch does not panic; it
    leaves the machines alone and yields one replica count for both
    pools. *)
Lemma platformSwitch_known (c : Config)
    (p : @platform AWSPlatform OpenStackPlatform LibvirtPlatform) :
  (AWS p <> None \/ OpenStack p <> None \/ Libvirt p <> None) ->
  exists c' n,
    platformSwitch c p = Returned (c', n, n)
    /\ Machines c' = Machines c
    /\ n = replicasFor p.
Proof.
  intros H. unfold platformSwitch, replicasFor.
  destruct (AWS p) as [aws|] eqn:Ea.
  - eexists _, _. repeat split.
  - destruct (OpenStack p) as [os|] eqn:Eo.
    + eexists _, _. repeat split.
    + destruct (Libvirt p) as [lv|] eqn:El.
      * eexists _, _. repeat split.
      * exfalso. destruct H as [H | [H | H]]; now apply H.
Qed.

(** C3 (as amended): when the platform asset carries none of AWS,
    OpenStack and Libvirt, [Generate] panics with "unknown platform
    type": it returns nothing, neither an error nor nil, and it leaves
    the asset without a file of its own making. *)
Theorem Generate_unknown_platform_panics
    (a : InstallConfig) (parents : Parents) :
  unknownPlatform parents ->
  snd (Generate Marshal a parents) = Panicked "unknown platform type"
  /\ (forall res, snd (Generate Marshal a parents) <> Returned res)
  /\ ic_File (fst (Generate Marshal a parents)) = ic_File a.
Proof.
  intros (Ha & Ho & Hl).
  unfold Generate, platformSwitch. rewrite Ha, Ho, Hl. cbn.
  repeat split. intros res H. discriminate H.
Qed.

(** C4: [Load] answers found=false with a nil error when there is no
    install-config.yml; its error is non-nil exactly when the state is
    there but malformed, and then it is that failure which is returned
    (with found=false), not a not-found. *)
Theorem Load_absent_or_malformed (a : InstallConfig) (f : FileFetcher) :
  (absent f -> snd (Load Unmarshal a f) = (false, None))
  /\ (forall e, snd (snd (Load Unmarshal a f)) = Some e <-> malformed Unmarshal f e)
  /\ (forall e, malformed Unmarshal f e -> snd (Load Unmarshal a f) = (false, Some e)).
Proof.
  unfold Load, absent, malformed.
  destruct (FetchByName f installConfigFilename) as [file | err] eqn:Ef.
  - destruct (Unmarshal (Data file)) as [config | perr] eqn:Eu; cbn.
    + split; [intros (e & He & _); discriminate He|].
      split.
      * intros e; split; [intros H; discriminate H|].
        intros [[H _] | (file' & e' & Hf & Hu & _)]; [discriminate H|].
        injection Hf as <-. rewrite Eu in Hu. discriminate Hu.
      * intros e [[H _] | (file' & e' & Hf & Hu & _)]; [discriminate H|].
        injection Hf as <-. rewrite Eu in Hu. discriminate Hu.
    + split; [intros (e & He & _); discriminate He|].
      split.
      * intros e; split.
        -- intros H. injection H as <-. right. now exists file, perr.
        -- intros [[H _] | (file' & e' & Hf & Hu & ->)]; [discriminate H|].
           injection Hf as <-. rewrite Eu in Hu. now injection Hu as <-.
      * intros e [[H _] | (file' & e' & Hf & Hu & ->)]; [discriminate H|].
        injection Hf as <-. rewrite Eu in Hu. now injection Hu as <-.
  - destruct (IsNotExist err) eqn:Ei; cbn.
    + split; [reflexivity|].
      split.
      * intros e; split; [intros H; discriminate H|].
        intros [[H Hn] | (file' & e' & Hf & _)]; [|discriminate Hf].
        injection H as <-. rewrite Ei in Hn. discriminate Hn.
      * intros e [[H Hn] | (file' & e' & Hf & _)]; [|discriminate Hf].
        injection H as <-. rewrite Ei in Hn. discriminate Hn.
    + split.
      * intros (e & He & Hn). injection He as <-. rewrite Ei in Hn.
        discriminate Hn.
      * split.
        -- intros e; split.
           ++ intros H. injection H as <-. now left.
           ++ intros [[H _] | (file' & e' & Hf & _)]; [|discriminate Hf].
              now injection H as <-.
        -- intros e [[H _] | (file' & e' & Hf & _)]; [|discriminate Hf].
           now injection H as <-.
Qed.

(** C8: [Files] is empty for an asset that no successful [Generate] or
    [Load] has populated (a fresh asset, and one whose [Generate] or
    [Load] did not succeed); after a [Generate] that returned nil it is
    exactly the one file install-config.yml holding the marshalled
    config, and after a [Load] that found the state it is exactly the
    one file that was fetched. *)
Theorem Files_before_and_after :
  Files (@empty AWSPlatform OpenStackPlatform LibvirtPlatform) = []
  /\ (forall (a : InstallConfig) parents,
        ic_File a = None ->
        snd (Generate Marshal a parents) <> Returned None ->
        Files (fst (Generate Marshal a parents)) = [])
  /\ (forall (a : InstallConfig) f,
        ic_File a = None ->
        fst (snd (Load Unmarshal a f)) = false ->
        Files (fst (Load Unmarshal a f)) = [])
  /\ (forall (a : InstallConfig) parents,
        snd (Generate Marshal a parents) = Returned None ->
        exists c data,
          ic_Config (fst (Generate Marshal a parents)) = Some c
          /\ Marshal c = inl data
          /\ Files (fst (Generate Marshal a parents))
             = [ {| Filename := installConfigFilename; Data := data |} ])
  /\ (forall (a : InstallConfig) f,
        fst (snd (Load Unmarshal a f)) = true ->
        exists file,
          FetchByName f installConfigFilename = inl file
          /\ Files (fst (Load Unmarshal a f)) = [file]).
Proof.
  split; [reflexivity|].
  split.
  { intros a parents Ha. unfold Generate, Files.
    destruct (platformSwitch _ _) as [[[c n] m] | msg]; cbn.
    - destruct (Marshal _); cbn.
      + intros H. now contradiction H.
      + now rewrite Ha.
    - now rewrite Ha. }
  split.
  { intros a f Ha. unfold Load, Files.
    destruct (FetchByName f _) as [file | err].
    - destruct (Unmarshal _); cbn; [discriminate|].
      now rewrite Ha.
    - destruct (IsNotExist err); cbn; now rewrite Ha. }
  split.
  { intros a parents. unfold Generate, Files.
    destruct (platformSwitch _ _) as [[[c n] m] | msg]; cbn.
    - destruct (Marshal _) as [data | err] eqn:Em; cbn.
      + intros _. eexists _, data. repeat split. exact Em.
      + discriminate.
    - discriminate. }
  { intros a f. unfold Load, Files.
    destruct (FetchByName f _) as [file | err].
    - destruct (Unmarshal _); cbn; [|discriminate].
      intros _. now exists file.
    - destruct (IsNotExist err); cbn; discriminate. }
Qed.

(** C9: whenever [Load] answers found=false, with or without an error,
    the receiver is as it was: Config and File are assigned on the
    found=true path only (where they become the parsed config and the
    fetched file). *)
Theorem Load_not_found_keeps_receiver (a : InstallConfig) (f : FileFetcher) :
  (fst (snd (Load Unmarshal a f)) = false ->
   ic_Config (fst (Load Unmarshal a f)) = ic_Config a
   /\ ic_File (fst (Load Unmarshal a f)) = ic_File a)
  /\ (fst (Load Unmarshal a f) <> a ->
      snd (Load Unmarshal a f) = (true, None)).
Proof.
  unfold Load.
  destruct (FetchByName f _) as [file | err].
  - destruct (Unmarshal _); cbn.
    + split; [discriminate | reflexivity].
    + split; [now split | intros H; now contradiction H].
  - destruct (IsNotExist err); cbn;
      (split; [now split | intros H; now contradiction H]).
Qed.

(** C10: with a known platform, [Generate] leaves a config whose
    Machines are exactly the pools "master" then "worker"; both replica
    counts are 3 when the platform is AWS or OpenStack, and 1 when it is
    Libvirt (and neither of the other two). *)
Theorem Generate_machine_pools (a : InstallConfig) (parents : Parents) :
  ~ unknownPlatform parents ->
  exists c n,
    ic_Config (fst (Generate Marshal a parents)) = Some c
    /\ Machines c =
       [ {| pool_Name := "master"; Replicas := Some n |};
         {| pool_Name := "worker"; Replicas := Some n |} ]
    /\ (AWS (Platform parents) <> None \/ OpenStack (Platform parents) <> None ->
        n = 3%Z)
    /\ (AWS (Platform parents) = None -> OpenStack (Platform parents) = None ->
        Libvirt (Platform parents) <> None ->
        n = 1%Z).
Proof.
  intros Hk.
  assert (Hp : AWS (Platform parents) <> None
               \/ OpenStack (Platform parents) <> None
               \/ Libvirt (Platform parents) <> None).
  { unfold unknownPlatform in Hk.
    destruct (AWS (Platform parents)); [left; discriminate|].
    destruct (OpenStack (Platform parents)); [right; left; discriminate|].
    destruct (Libvirt (Platform parents)); [right; right; discriminate|].
    exfalso. now apply Hk. }
  destruct (platformSwitch_known (baseConfig parents) _ Hp)
    as (c' & n & Hs & _ & Hn).
  unfold Generate. rewrite Hs.
  exists (set_Machines c' (machinePools n n)), n.
  split; [destruct (Marshal _); reflexivity|].
  split; [reflexivity|].
  subst n. unfold replicasFor. split.
  - intros [H | H].
    + destruct (AWS (Platform parents)); [reflexivity | now contradiction H].
    + destruct (AWS (Platform parents)); [reflexivity|].
      destruct (OpenStack (Platform parents)); [reflexivity | now contradiction H].
  - intros -> -> _. reflexivity.
Qed.

End Facts.

End installconfig_facts.

Module installconfig_examples.

Import installconfig installconfig_terms inputs installconfig_facts.

(** C3 (as stated) fails: with a platform asset that carries no
    platform, [Generate] returns no error at all. *)
Lemma Generate_unknown_platform_returns_no_error :
  unknownPlatform (someParents noPlatform)
  /\ ~ (exists e : error,
          snd (Generate marshalOK empty (someParents noPlatform))
          = Returned (Some e)).
Proof.
  split; [repeat split|].
  intros (e & He). vm_compute in He. discriminate He.
Qed.

(** C3 (as amended) at the platform asset that carries no platform. *)
Lemma Generate_unknown_platform_panics_witness :
  unknownPlatform (someParents noPlatform)
  /\ snd (Generate marshalOK empty (someParents noPlatform))
     = Panicked "unknown platform type".
Proof.
  assert (H : unknownPlatform (someParents noPlatform)) by (repeat split).
  split; [exact H|].
  exact (proj1 (Generate_unknown_platform_panics
                  marshalOK empty (someParents noPlatform) H)).
Defined.

(** C9 at a directory whose install-config.yml cannot be read. *)
Lemma Load_not_found_keeps_receiver_witness :
  fst (snd (Load unmarshalNonEmpty empty unreadableDir)) = false
  /\ ic_Config (fst (Load unmarshalNonEmpty empty unreadableDir)) = None
  /\ ic_File (fst (Load unmarshalNonEmpty empty unreadableDir)) = None.
Proof.
  split; [reflexivity|].
  exact (proj1 (Load_not_found_keeps_receiver
                  unmarshalNonEmpty empty unreadableDir) eq_refl).
Defined.

(** C10 on Libvirt, with an encoder that fails afterwards. *)
Lemma Generate_machine_pools_witness :
  exists c n,
    ic_Config (fst (Generate marshalBroken empty (someParents onLibvirt)))
    = Some c
    /\ Machines c =
       [ {| pool_Name := "master"; Replicas := Some n |};
         {| pool_Name := "worker"; Replicas := Some n |} ]
    /\ n = 1%Z.
Proof.
  destruct (Generate_machine_pools marshalBroken empty (someParents onLibvirt))
    as (c & n & Hc & Hm & _ & Hl).
  - intros (_ & _ & H). discriminate H.
  - exists c, n. split; [exact Hc|]. split; [exact Hm|].
    apply Hl; [reflexivity | reflexivity | discriminate].
Defined.

(** A few runs, for orientation. *)
Example Load_empty_directory :
  Load unmarshalNonEmpty empty emptyDir = (empty, (false, None)).
Proof. reflexivity. Qed.

Example Load_unreadable_file :
  snd (Load unmarshalNonEmpty empty unreadableDir)
  = (false, Some (PathError "open" "install-config.yml" (New "permission denied"))).
Proof. reflexivity. Qed.

Example Load_empty_file :
  snd (Load unmarshalNonEmpty empty (dirWith []))
  = (false, Some (Wrap (New "EOF") "failed to unmarshal")).
Proof. reflexivity. Qed.

Example Load_good_file :
  snd (Load unmarshalNonEmpty empty (dirWith [x61])) = (true, None)
  /\ Files (fst (Load unmarshalNonEmpty empty (dirWith [x61])))
     = [ {| Filename := "install-config.yml"; Data := [x61] |} ].
Proof. split; reflexivity. Qed.

Example Generate_on_AWS :
  snd (Generate marshalOK empty (someParents onAWS)) = Returned None
  /\ length (Files (fst (Generate marshalOK empty (someParents onAWS)))) = 1%nat
  /\ option_map Machines
       (ic_Config (fst (Generate marshalOK empty (someParents onAWS))))
     = Some [ {| pool_Name := "master"; Replicas := Some 3%Z |};
              {| pool_Name := "worker"; Replicas := Some 3%Z |} ].
Proof. repeat split. Qed.

End installconfig_examples.


(* ================================================================== *)
(** * Properties of runTargetCmd *)
(* ================================================================== *)

Module runTargetCmd_facts.

Import create create_terms.

Section Facts.

Context {Asset Disk : Type}.
Variable Name : Asset -> string.
Variable setupFileHook : Disk -> Disk * option error.
Variable cleanup : Disk -> Disk.
Variable NewStore : Disk -> Disk * option error.
Variable Fetch : Asset -> Disk -> Disk * option error.
Variable PersistToFile : Asset -> Disk -> Disk * option error.

Local Abbreviation fetchAll := (fetchAll Name Fetch PersistToFile).
Local Abbreviation runTargetCmd :=
  (runTargetCmd Name setupFileHook cleanup NewStore Fetch PersistToFile).

(** Assets that went through without an error do not change what
    happens to the assets after them. *)
Lemma fetchAll_app (before rest : list Asset) (r r' : Run) :
  fetchAll before r = (r', None) ->
  fetchAll (before ++ rest) r = fetchAll rest r'.
Proof.
  revert r. induction before as [|a before IH]; intros r H; cbn in *.
  - now injection H as <-.
  - destruct (on_disk (Fetch a) _) as [r1 err0].
    destruct (wrapFetchError Name a err0 r1) as [r2 err].
    destruct (on_disk (PersistToFile a) _) as [r3 err2].
    destruct err2 as [e2|]; destruct err as [e|]; try discriminate H.
    now apply IH.
Qed.

(** One asset whose fetch and whose persistence both fail. *)
Lemma fetchAll_both_fail (a : Asset) (rest : list Asset) (r : Run)
    (e e2 : error) (d1 d2 : Disk) :
  Fetch a (disk r) = (d1, Some e) ->
  PersistToFile a d1 = (d2, Some e2) ->
  fetchAll (a :: rest) r
  = ({| disk := d2;
        actions :=
          actions r ++ [DoFetch a] ++ exitOutput e
          ++ [DoPersist a;
              DoLog ErrorLevel
                (Error (Wrap e2 ("failed to write asset (" ++ Name a
                                 ++ ") to disk")))] |},
     Some (Wrap e ("failed to fetch " ++ Name a))).
Proof.
  intros Hf Hp. cbn. unfold on_disk, act, wrapFetchError, exitOutput. cbn.
  rewrite Hf.
  destruct (Cause e) as [| | | status [|c stderr] |] eqn:Ec; cbn;
    rewrite Hp; cbn; rewrite <- ?app_assoc; reflexivity.
Qed.

(** C1: for every target list, when the assets before [a] went through,
    the fetch of [a] fails with [e] and the persistence of [a], which
    is attempted all the same, fails with [e2], then [runTargetCmd]
    logs the persistence error (wrapped) at error level as its last
    action and returns the fetch error, wrapped with the name of the
    asset: its cause is the cause of [e].  The assets after [a] are not
    touched. *)
Theorem runTargetCmd_fetch_and_persist_fail
    (before after : list Asset) (a : Asset) (r0 r : Run)
    (d d0 d1 d2 : Disk) (e e2 : error) :
  setupFileHook (disk r0) = (d, None) ->
  NewStore d = (d0, None) ->
  fetchAll before {| disk := d0; actions := actions r0 |} = (r, None) ->
  Fetch a (disk r) = (d1, Some e) ->
  PersistToFile a d1 = (d2, Some e2) ->
  let persistError :=
    Wrap e2 ("failed to write asset (" ++ Name a ++ ") to disk") in
  let returned := Wrap e ("failed to fetch " ++ Name a) in
  runTargetCmd (before ++ a :: after) r0
  = ({| disk := cleanup d2;
        actions := actions r ++ [DoFetch a] ++ exitOutput e
                   ++ [DoPersist a; DoLog ErrorLevel (Error persistError)] |},
     Some returned)
  /\ Cause returned = Cause e.
Proof.
  intros Hh Hs Hb Hf Hp persistError returned.
  split; [|reflexivity].
  unfold create.runTargetCmd, on_disk.
  rewrite Hh. cbn [disk actions]. rewrite Hs.
  rewrite (fetchAll_app before (a :: after) _ r Hb).
  rewrite (fetchAll_both_fail a after r e e2 d1 d2 Hf Hp).
  reflexivity.
Qed.

End Facts.

End runTargetCmd_facts.

Module runTargetCmd_examples.

Import create create_terms runTargetCmd_inputs runTargetCmd_facts.

(** C1 at the cluster target: two assets go through, the fetch and the
    persistence of the third fail, the fourth is not reached. *)
Lemma runTargetCmd_fetch_and_persist_fail_witness :
  runTargetCmd (fun a => a) hookOK cleanupNothing storeOK
               fetchCluster persistCluster
               (["Terraform Variables"; "Kubeconfig Admin"]
                  ++ "Cluster" :: ["Metadata"]) start
  = ({| disk := ["Terraform Variables"; "Kubeconfig Admin"];
        actions :=
          [DoFetch "Terraform Variables"; DoPersist "Terraform Variables";
           DoFetch "Kubeconfig Admin"; DoPersist "Kubeconfig Admin"]
          ++ [DoFetch "Cluster"] ++ exitOutput tfError
          ++ [DoPersist "Cluster";
              DoLog ErrorLevel
                (Error (Wrap writeError
                          ("failed to write asset (" ++ "Cluster" ++ ") to disk")))]
     |},
     Some (Wrap tfError ("failed to fetch " ++ "Cluster")))
  /\ Cause (Wrap tfError ("failed to fetch " ++ "Cluster")) = Cause tfError.
Proof.
  exact (runTargetCmd_fetch_and_persist_fail
           (fun a => a) hookOK cleanupNothing storeOK fetchCluster persistCluster
           ["Terraform Variables"; "Kubeconfig Admin"] ["Metadata"] "Cluster"
           start
           {| disk := ["Terraform Variables"; "Kubeconfig Admin"];
              actions :=
                [DoFetch "Terraform Variables"; DoPersist "Terraform Variables";
                 DoFetch "Kubeconfig Admin"; DoPersist "Kubeconfig Admin"] |}
           [] [] ["Terraform Variables"; "Kubeconfig Admin"]
           ["Terraform Variables"; "Kubeconfig Admin"]
           tfError writeError
           eq_refl eq_refl eq_refl eq_refl eq_refl).
Defined.

(** The same run, as the operator sees it. *)
Example runTargetCmd_cluster_fails :
  let '(r, err) :=
    runTargetCmd (fun a => a) hookOK cleanupNothing storeOK
                 fetchCluster persistCluster
                 ["Terraform Variables"; "Kubeconfig Admin"; "Cluster"; "Metadata"]
                 start in
  actions r
  = [DoFetch "Terraform Variables"; DoPersist "Terraform Variables";
     DoFetch "Kubeconfig Admin"; DoPersist "Kubeconfig Admin";
     DoFetch "Cluster";
     DoLog ErrorLevel "Error: quota exceeded";
     DoPersist "Cluster";
     DoLog ErrorLevel
       "failed to write asset (Cluster) to disk: open terraform.tfstate: permission denied"]
  /\ option_map Error err
     = Some "failed to fetch Cluster: failed to generate asset: exit status 1".
Proof. split; reflexivity. Qed.

End runTargetCmd_examples.

(* ================================================================== *)
(** * Properties of the string helpers *)
(* ================================================================== *)

Module strings_facts.

Import strings strings_terms.

(** [Split] cuts at every separator and nowhere else: joining the
    chunks gives the text back, and no chunk holds a separator. *)
Lemma append_assoc (a b c : string) :
  ((a ++ b) ++ c = a ++ (b ++ c))%string.
Proof. induction a as [|x a IH]; cbn; [reflexivity | now rewrite IH]. Qed.

Lemma Split_not_nil (s : string) (sep : ascii) : Split s sep <> [].
Proof.
  destruct s as [|c s]; cbn; [discriminate|].
  destruct (Ascii.eqb c sep); [discriminate|].
  destruct (Split s sep); discriminate.
Qed.

Lemma Join_Split (s : string) (sep : ascii) : Join (Split s sep) sep = s.
Proof.
  induction s as [|c s IH]; [reflexivity|]. cbn [Split].
  destruct (Ascii.eqb c sep) eqn:Ec.
  - apply Ascii.eqb_eq in Ec. subst c.
    pose proof (Split_not_nil s sep) as Hn.
    destruct (Split s sep) as [|chunk chunks]; [now contradiction Hn|].
    change (Join (EmptyString :: chunk :: chunks) sep)
      with (String sep (Join (chunk :: chunks) sep)).
    now rewrite IH.
  - destruct (Split s sep) as [|chunk chunks]; [cbn in IH; now subst s|].
    destruct chunks as [|chunk' chunks]; cbn in *; now rewrite IH.
Qed.

Lemma Split_free (s : string) (sep : ascii) :
  Forall (free_of sep) (Split s sep).
Proof.
  induction s as [|c s IH]; cbn [Split].
  - constructor; [|constructor]. intros H. exact H.
  - destruct (Ascii.eqb c sep) eqn:Ec.
    + constructor; [|exact IH]. intros H. exact H.
    + apply Ascii.eqb_neq in Ec.
      destruct (Split s sep) as [|chunk chunks].
      * constructor; [|constructor]. cbn. intros [H | H]; [now apply Ec | exact H].
      * inversion IH as [|x l Hx Hl]; subst.
        constructor; [|exact Hl].
        cbn. intros [H | H]; [now apply Ec | now apply Hx].
Qed.

Lemma Join_last (chunks : list string) (sep : ascii) :
  chunks <> [] ->
  Join chunks sep = last chunks EmptyString
  \/ exists before : string,
       Join chunks sep = (before ++ String sep (last chunks EmptyString))%string.
Proof.
  induction chunks as [|chunk chunks IH]; intros Hn; [now contradiction Hn|].
  destruct chunks as [|chunk' chunks]; [now left|].
  right.
  change (Join (chunk :: chunk' :: chunks) sep)
    with (chunk ++ String sep (Join (chunk' :: chunks) sep))%string.
  change (last (chunk :: chunk' :: chunks) EmptyString)
    with (last (chunk' :: chunks) EmptyString).
  destruct IH as [H | (before & H)]; [discriminate | |].
  - exists chunk. now rewrite H.
  - exists (chunk ++ String sep before)%string. rewrite H.
    now rewrite append_assoc.
Qed.

(** The last chunk of a split is the text after the last separator, or
    the whole text when there is no separator in it. *)
Lemma Split_last (s : string) (sep : ascii) :
  free_of sep (last (Split s sep) EmptyString)
  /\ (s = last (Split s sep) EmptyString
      \/ exists before : string,
           s = (before ++ String sep (last (Split s sep) EmptyString))%string).
Proof.
  split.
  - pose proof (Split_free s sep) as Hf.
    pose proof (Split_not_nil s sep) as Hn.
    rewrite Forall_forall in Hf. apply Hf.
    destruct (exists_last Hn) as (l & x & ->).
    rewrite last_last. apply in_or_app. right. now left.
  - pose proof (Join_last (Split s sep) sep (Split_not_nil s sep)) as H.
    now rewrite Join_Split in H.
Qed.

End strings_facts.

(* ================================================================== *)
(** * Properties of destroyBootstrap *)
(* ================================================================== *)

Module destroyBootstrap_facts.

Import create create_terms.

Local Open Scope Z_scope.

(** X20: the condition never fails and takes no time; it reports
    done=true if and only if the event is an Added event whose object
    is a core Event named exactly "bootstrap-complete"; for a
    stream-level Error event it reports done=false with a nil error,
    and what it adds to the trace is the line "error <name>: <message>"
    (at debug level) when the object of the event is a core Event, and
    nothing when it is anything else.  Events are those of [WatchEvent]:
    the pointer to a core Event is not nil. *)
Theorem bootstrapComplete_done (watchEvent : WatchEvent) (w : World) :
  exists done w',
    bootstrapComplete watchEvent w = Some ((done, None), w')
    /\ (done = true <-> isBootstrapComplete watchEvent)
    /\ (we_Type watchEvent = WatchError ->
        done = false
        /\ trace w' = trace w ++ stamped (now w) (errorLine watchEvent))
    /\ now w' = now w.
Proof.
  unfold bootstrapComplete, isBootstrapComplete, errorLine.
  destruct watchEvent as [type object]; cbn.
  destruct object as [| event | message | kind]; cbn;
    try (exists false, w; split; [reflexivity|];
         split; [split; [discriminate | intros (_ & ev & H & _); discriminate H]|];
         split; [intros _; split; [reflexivity | now rewrite app_nil_r] | reflexivity]).
  destruct (String.eqb type WatchError) eqn:Eerr.
  - apply String.eqb_eq in Eerr. subst type.
    eexists false, _. split; [reflexivity|]. cbn.
    split; [split; [discriminate | intros (H & _); discriminate H]|].
    split; [intros _; split; reflexivity | reflexivity].
  - apply String.eqb_neq in Eerr.
    destruct (String.eqb type Added) eqn:Eadd; cbn.
    + apply String.eqb_eq in Eadd. subst type.
      eexists (String.eqb (ev_Name event) "bootstrap-complete"), _.
      split; [reflexivity|]. cbn.
      split.
      * split.
        -- intros H. apply String.eqb_eq in H.
           split; [reflexivity|]. now exists event.
        -- intros (_ & ev & H & Hn). injection H as <-.
           now apply String.eqb_eq.
      * split; [intros H; discriminate H | reflexivity].
    + apply String.eqb_neq in Eadd.
      exists false, w. split; [reflexivity|].
      split; [split; [discriminate | intros (H & _); now contradiction Eadd]|].
      split; [intros H; now contradiction Eerr | reflexivity].
Qed.

Section Cluster.

Context {Watcher : Type}.
Variable cluster : @Cluster Watcher.

(** An attempt that fails: the deadline decides between giving up with
    the error of the attempt and trying again 2 seconds later. *)
Lemma openWatch_failed_attempt (fuel : nat) (ctx : Context) (rv : string)
    (w : World) (took : N) (watcher : option Watcher) (e : error) :
  Watch cluster (watches w) rv = (took, (watcher, Some e)) ->
  openWatch cluster (S fuel) ctx rv w
  = if expired ctx (now (attempted w rv took))
    then Some ((watcher, Some e), attempted w rv took)
    else openWatch cluster fuel ctx rv (backedOff (attempted w rv took) e).
Proof.
  intros H. cbn [openWatch]. unfold bind at 1. unfold eventsWatch.
  rewrite H. cbn. unfold bind at 1. unfold clock. cbn.
  fold (attempted w rv took).
  change (now w + Z.of_N took) with (now (attempted w rv took)).
  destruct (expired ctx (now (attempted w rv took))); reflexivity.
Qed.

(** An attempt that succeeds ends the opener. *)
Lemma openWatch_opened (fuel : nat) (ctx : Context) (rv : string)
    (w : World) (took : N) (watcher : option Watcher) :
  Watch cluster (watches w) rv = (took, (watcher, None)) ->
  openWatch cluster (S fuel) ctx rv w
  = Some ((watcher, None), attempted w rv took).
Proof.
  intros H. cbn [openWatch]. unfold bind at 1. unfold eventsWatch.
  now rewrite H.
Qed.

(** With a deadline the opener returns, given fuel for the attempts
    that fit before the deadline; an error comes back only once the
    deadline has passed, and it is the answer of the last attempt. *)
Lemma openWatch_returns (fuel : nat) (ctx : Context) (d : Z) (rv : string) :
  deadline ctx = Some d ->
  forall w : World,
    (1 <= fuel)%nat ->
    d - now w <= (Z.of_nat fuel - 1) * (2 * Second) ->
    exists watcher err w' took,
      openWatch cluster fuel ctx rv w = Some ((watcher, err), w')
      /\ (watches w < watches w')%nat
      /\ Watch cluster (pred (watches w')) rv = (took, (watcher, err))
      /\ (err <> None -> d <= now w').
Proof.
  intros Hd. induction fuel as [|fuel IH]; intros w Hf Hb; [lia|].
  destruct (Watch cluster (watches w) rv) as [took [watcher [e|]]] eqn:Ew.
  - rewrite (openWatch_failed_attempt fuel ctx rv w took watcher e Ew).
    destruct (expired ctx (now (attempted w rv took))) eqn:Ex.
    + exists watcher, (Some e), (attempted w rv took), took.
      split; [reflexivity|]. cbn. split; [lia|]. split; [exact Ew|].
      intros _. unfold expired in Ex. rewrite Hd in Ex.
      apply Z.leb_le in Ex. exact Ex.
    + unfold expired in Ex. rewrite Hd in Ex. apply Z.leb_gt in Ex.
      cbn [now attempted] in Ex. unfold Second in *.
      destruct (IH (backedOff (attempted w rv took) e))
        as (watcher' & err' & w' & took' & Hr & Hw & Ha & He).
      * lia.
      * cbn [now attempted backedOff]. unfold Second. lia.
      * exists watcher', err', w', took'. split; [exact Hr|].
        cbn [watches attempted backedOff] in Hw.
        split; [lia|]. split; [exact Ha | exact He].
  - rewrite (openWatch_opened fuel ctx rv w took watcher Ew).
    exists watcher, None, (attempted w rv took), took.
    split; [reflexivity|]. cbn. split; [lia|]. split; [exact Ew|].
    intros H. now contradiction H.
Qed.

(** C6 (as amended): when an attempt to open the watch fails and the
    deadline has not passed, the opener logs a warning, sleeps 2 seconds
    and tries again; when an attempt fails and the deadline has passed,
    the opener gives up and returns the error of that attempt as it
    is, the transport error, not a timeout error.  With a deadline the
    opener always returns. *)
Theorem openWatch_retries_until_deadline (fuel : nat) (ctx : Context)
    (rv : string) (w : World) (took : N) (watcher : option Watcher)
    (e : error) :
  Watch cluster (watches w) rv = (took, (watcher, Some e)) ->
  let tried := attempted w rv took in
  (expired ctx (now tried) = false ->
   openWatch cluster (S fuel) ctx rv w
   = openWatch cluster fuel ctx rv (backedOff tried e)
   /\ now (backedOff tried e) = now tried + 2 * Second)
  /\ (expired ctx (now tried) = true ->
      openWatch cluster (S fuel) ctx rv w = Some ((watcher, Some e), tried))
  /\ (forall d,
        deadline ctx = Some d ->
        d - now w <= Z.of_nat fuel * (2 * Second) ->
        exists res w',
          openWatch cluster (S fuel) ctx rv w = Some (res, w')
          /\ (snd res <> None -> d <= now w')).
Proof.
  intros H tried.
  pose proof (openWatch_failed_attempt fuel ctx rv w took watcher e H) as Hs.
  fold tried in Hs.
  split; [|split].
  - intros Hx. rewrite Hx in Hs. split; [exact Hs | reflexivity].
  - intros Hx. rewrite Hx in Hs. exact Hs.
  - intros d Hd Hb.
    destruct (openWatch_returns (S fuel) ctx d rv Hd w)
      as (watcher' & err' & w' & took' & Hr & _ & _ & He);
      [lia | unfold Second in *; lia |].
    exists (watcher', err'), w'. split; [exact Hr | exact He].
Qed.

(** One failed query: the closure logs when the claim's rule says so,
    and its variables follow the rule's. *)
Lemma onQueryError_tracks (p : Poll) (previous : string) (silent : nat)
    (e : error) :
  tracks p previous silent ->
  let logged :=
    negb (String.eqb (errorSuffix e) previous) || Nat.eqb (S silent) 15 in
  snd (onQueryError p e) = logged
  /\ cancelled (fst (onQueryError p e)) = cancelled p
  /\ tracks (fst (onQueryError p e))
            (if logged then errorSuffix e else previous)
            (if logged then 0 else S silent).
Proof.
  intros (Hp & Hs & Hlt). unfold onQueryError, tracks, logDownsample in *.
  rewrite Hp, Hs. rewrite (String.eqb_sym previous).
  destruct (String.eqb (errorSuffix e) previous) eqn:Eq; cbn [negb orb].
  - apply String.eqb_eq in Eq.
    destruct (Nat.eqb (S silent) 15) eqn:En.
    + apply Nat.eqb_eq in En.
      replace (15 - Z.of_nat silent - 1 =? 0) with true
        by (symmetry; apply Z.eqb_eq; lia).
      cbn [fst snd previousErrorSuffix silenceRemaining cancelled].
      repeat split; try lia. now rewrite Eq.
    + apply Nat.eqb_neq in En.
      replace (15 - Z.of_nat silent - 1 =? 0) with false
        by (symmetry; apply Z.eqb_neq; lia).
      cbn [fst snd previousErrorSuffix silenceRemaining cancelled].
      repeat split; try lia.
  - cbn [fst snd previousErrorSuffix silenceRemaining cancelled].
    repeat split; lia.
Qed.

(** A failed query does not cancel. *)
Lemma onQueryError_cancelled (p : Poll) (e : error) :
  cancelled (fst (onQueryError p e)) = cancelled p.
Proof.
  unfold onQueryError.
  destruct (negb (String.eqb (previousErrorSuffix p) (errorSuffix e)));
    [reflexivity|].
  destruct (silenceRemaining p - 1 =? 0); reflexivity.
Qed.

(** One call of the closure. *)
Lemma pollAPI_call (p : Poll) (w : World) :
  exists p1 w1,
    pollAPI cluster p w = Some (p1, w1)
    /\ queries w1 = S (queries w)
    /\ now w <= now w1
    /\ match snd (ServerVersion cluster (queries w)) with
       | inl version =>
           cancelled p1 = true
           /\ effects w1
              = effects w
                ++ [QueryVersion; Log InfoLevel ("API " ++ version ++ " up")]
       | inr e =>
           p1 = fst (onQueryError p e)
           /\ effects w1 = effects w ++ failedQuery e (snd (onQueryError p e))
       end.
Proof.
  unfold pollAPI, bind at 1, serverVersion, effects, failedQuery.
  destruct (ServerVersion cluster (queries w)) as [took [version | e]]; cbn.
  - eexists _, _. split; [reflexivity|]. cbn.
    split; [reflexivity|]. split; [lia|]. split; [reflexivity|].
    rewrite !map_app, <- app_assoc. reflexivity.
  - destruct (onQueryError p e) as [p' [|]]; cbn.
    + eexists _, _. split; [reflexivity|]. cbn.
      split; [reflexivity|]. split; [lia|]. split; [reflexivity|].
      rewrite !map_app, <- app_assoc. reflexivity.
    + eexists _, _. split; [reflexivity|]. cbn.
      split; [reflexivity|]. split; [lia|]. split; [reflexivity|].
      rewrite map_app. reflexivity.
Qed.

(** One turn of [wait.Until] around the closure. *)
Lemma waitUntil_turn (fuel : nat) (period : Z) (ctx : Context) (p : Poll)
    (w : World) :
  waitUntil cluster (S fuel) (pollAPI cluster) period ctx p w
  = if cancelled p || expired ctx (now w) then Some (p, w)
    else match pollAPI cluster p w with
         | None => None
         | Some (p1, w1) =>
             if cancelled p1 || expired ctx (now w1) then Some (p1, w1)
             else if expired ctx (now w1 + period)
             then match deadline ctx with
                  | Some d =>
                      if (d =? now w1 + period) && timerFirst cluster
                      then pollAPI cluster p1 (ahead w1 (d - now w1))
                      else Some (p1, ahead w1 (d - now w1))
                  | None => Some (p1, w1)
                  end
             else waitUntil cluster fuel (pollAPI cluster) period ctx p1
                    (ahead w1 period)
         end.
Proof.
  cbn [waitUntil]. unfold bind at 1. unfold clock at 1.
  destruct (cancelled p || expired ctx (now w)); [reflexivity|].
  unfold bind at 1. destruct (pollAPI cluster p w) as [[p1 w1]|]; [|reflexivity].
  unfold bind at 1. unfold clock at 1.
  destruct (cancelled p1 || expired ctx (now w1)); [reflexivity|].
  destruct (expired ctx (now w1 + period)); [|reflexivity].
  destruct (deadline ctx) as [d|]; [|reflexivity].
  unfold bind at 1. unfold elapse at 1. fold (ahead w1 (d - now w1)).
  destruct ((d =? now w1 + period) && timerFirst cluster); reflexivity.
Qed.

(** The poll only adds queries. *)
Lemma waitUntil_queries (fuel : nat) (period : Z) (ctx : Context) :
  forall (p : Poll) (w : World) (p' : Poll) (w' : World),
    waitUntil cluster fuel (pollAPI cluster) period ctx p w = Some (p', w') ->
    (queries w <= queries w')%nat.
Proof.
  induction fuel as [|fuel IH]; intros p w p' w' H; [discriminate H|].
  rewrite waitUntil_turn in H.
  destruct (cancelled p || expired ctx (now w)).
  { injection H as _ <-. lia. }
  destruct (pollAPI_call p w) as (p1 & w1 & Hc & Hq & _). rewrite Hc in H.
  destruct (cancelled p1 || expired ctx (now w1)).
  { injection H as _ <-. lia. }
  destruct (expired ctx (now w1 + period)).
  - destruct (deadline ctx) as [d|]; [|injection H as _ <-; lia].
    destruct ((d =? now w1 + period) && timerFirst cluster).
    + destruct (pollAPI_call p1 (ahead w1 (d - now w1)))
        as (p2 & w2 & Hc2 & Hq2 & _).
      rewrite Hc2 in H. injection H as _ <-. cbn [queries ahead] in Hq2. lia.
    + injection H as _ <-. cbn [queries ahead]. lia.
  - apply IH in H. cbn in H. lia.
Qed.

Lemma answers_cons (first count : nat) :
  answers cluster first (S count)
  = snd (ServerVersion cluster first) :: answers cluster (S first) count.
Proof. reflexivity. Qed.

(** The trace of one call of the closure, in the terms of the rule. *)
Lemma pollAPI_log (p : Poll) (w : World) (p' : Poll) (w' : World)
    (previous : string) (silent : nat) :
  tracks p previous silent ->
  pollAPI cluster p w = Some (p', w') ->
  exists errs up,
    queries w' = S (queries w)
    /\ answers cluster (queries w) 1 = map inr errs ++ success up
    /\ effects w'
       = effects w
         ++ pollEffects errs
              (stillWaitingLogged previous silent (map errorSuffix errs))
         ++ successEffects up.
Proof.
  intros Ht H.
  destruct (pollAPI_call p w) as (p1 & w1 & Hc & Hq & _ & Hans).
  rewrite Hc in H. injection H as <- <-.
  destruct (snd (ServerVersion cluster (queries w))) as [version | e] eqn:Ea.
  - destruct Hans as (_ & Heff). exists [], (Some version).
    split; [exact Hq|]. split; [cbn; now rewrite Ea | exact Heff].
  - destruct Hans as (_ & Heff).
    destruct (onQueryError_tracks p previous silent e Ht) as (Hl & _ & _).
    rewrite Hl in Heff. exists [e], None.
    split; [exact Hq|]. split; [cbn; now rewrite Ea|].
    cbn [map stillWaitingLogged pollEffects successEffects].
    rewrite Heff.
    destruct (negb (String.eqb (errorSuffix e) previous) || Nat.eqb (S silent) 15);
      cbn [pollEffects]; now rewrite !app_nil_r.
Qed.

(** The trace of the poll: the queries it made failed, except that the
    last one may have succeeded, and every failure left its query and,
    when the claim's rule says so, its line. *)
Lemma waitUntil_log (fuel : nat) (period : Z) (ctx : Context) :
  forall (p : Poll) (w : World) (p' : Poll) (w' : World)
         (previous : string) (silent : nat),
    tracks p previous silent ->
    waitUntil cluster fuel (pollAPI cluster) period ctx p w = Some (p', w') ->
    exists errs up,
      answers cluster (queries w) (queries w' - queries w)
      = map inr errs ++ success up
      /\ effects w'
         = effects w
           ++ pollEffects errs
                (stillWaitingLogged previous silent (map errorSuffix errs))
           ++ successEffects up.
Proof.
  induction fuel as [|fuel IH];
    intros p w p' w' previous silent Ht H; [discriminate H|].
  rewrite waitUntil_turn in H.
  destruct (cancelled p || expired ctx (now w)).
  { injection H as _ <-. exists [], None. rewrite Nat.sub_diag.
    split; [reflexivity|]. cbn. now rewrite app_nil_r. }
  destruct (pollAPI_call p w) as (p1 & w1 & Hc & Hq & _ & Hans).
  rewrite Hc in H.
  destruct (snd (ServerVersion cluster (queries w))) as [version | e] eqn:Ea.
  - (* the query succeeded: the closure cancelled, the loop is over *)
    destruct Hans as (Hcan & Heff). rewrite Hcan in H. cbn [orb] in H.
    injection H as _ <-. exists [], (Some version).
    rewrite Hq. replace (S (queries w) - queries w)%nat with 1%nat by lia.
    split; [cbn; now rewrite Ea | exact Heff].
  - destruct Hans as (Hp1 & Heff).
    destruct (onQueryError_tracks p previous silent e Ht) as (Hl & _ & Ht1).
    rewrite <- Hp1 in Ht1. rewrite Hl in Heff.
    set (logged := negb (String.eqb (errorSuffix e) previous)
                   || Nat.eqb (S silent) 15) in *.
    assert (Hrest : exists errs up,
      (queries w1 <= queries w')%nat
      /\ answers cluster (queries w1) (queries w' - queries w1)
         = map inr errs ++ success up
      /\ effects w'
         = effects w1
           ++ pollEffects errs
                (stillWaitingLogged (if logged then errorSuffix e else previous)
                                    (if logged then 0%nat else S silent)
                                    (map errorSuffix errs))
           ++ successEffects up).
    { destruct (cancelled p1 || expired ctx (now w1)).
      - injection H as _ <-. exists [], None. rewrite Nat.sub_diag.
        split; [lia|]. split; [reflexivity|]. cbn. now rewrite app_nil_r.
      - destruct (expired ctx (now w1 + period)).
        + assert (Hquiet :
                    queries w' = queries w1 /\ effects w' = effects w1 ->
                    exists errs up,
                      (queries w1 <= queries w')%nat
                      /\ answers cluster (queries w1) (queries w' - queries w1)
                          = map inr errs ++ success up
                      /\ effects w'
                          = effects w1
                            ++ pollEffects errs
                                 (stillWaitingLogged
                                    (if logged then errorSuffix e else previous)
                                    (if logged then 0%nat else S silent)
                                    (map errorSuffix errs))
                            ++ successEffects up).
          { intros (Hw1 & Hw2). exists [], None.
            rewrite Hw1, Nat.sub_diag, Hw2.
            split; [lia|]. split; [reflexivity|]. cbn. now rewrite app_nil_r. }
          destruct (deadline ctx) as [d|];
            [|apply Hquiet; injection H as _ <-; split; reflexivity].
          destruct ((d =? now w1 + period) && timerFirst cluster);
            [|apply Hquiet; injection H as _ <-; split; reflexivity].
          destruct (pollAPI_log _ _ _ _ _ _ Ht1 H) as (errs & up & Hq2 & Ha & He).
          cbn [queries ahead] in Hq2, Ha.
          exists errs, up. split; [lia|]. split.
          * rewrite Hq2.
            replace (S (queries w1) - queries w1)%nat with 1%nat by lia.
            exact Ha.
          * exact He.
        + pose proof (waitUntil_queries _ _ _ _ _ _ _ H) as Hmono.
          destruct (IH _ _ _ _ _ _ Ht1 H) as (errs & up & Ha & He).
          exists errs, up. split; [exact Hmono|]. split; [exact Ha | exact He]. }
    destruct Hrest as (errs & up & Hle & Ha & He).
    exists (e :: errs), up. split.
    + replace (queries w' - queries w)%nat
        with (S (queries w' - queries w1))%nat by lia.
      rewrite answers_cons, Ea, <- Hq, Ha. reflexivity.
    + cbn [map stillWaitingLogged pollEffects]. fold logged.
      rewrite He, Heff, <- !app_assoc.
      destruct logged; reflexivity.
Qed.

(** The closure cancels only after a query that succeeded. *)
Lemma pollAPI_cancels (p : Poll) (w : World) (p1 : Poll) (w1 : World) :
  cancelled p = false ->
  pollAPI cluster p w = Some (p1, w1) ->
  cancelled p1 = true ->
  exists version, In (apiUp version) (effects w1).
Proof.
  intros Ecp H.
  destruct (pollAPI_call p w) as (p1' & w1' & Hc & _ & _ & Hans).
  rewrite Hc in H. injection H as <- <-.
  destruct (snd (ServerVersion cluster (queries w))) as [version | e].
  - intros _. exists version. destruct Hans as (_ & ->).
    apply in_or_app. right. right. now left.
  - destruct Hans as (-> & _). rewrite onQueryError_cancelled, Ecp.
    discriminate.
Qed.

(** With a deadline the poll ends, given fuel for the turns that fit
    before the deadline: the closure has cancelled the context after a
    successful query, or the deadline has passed. *)
Lemma waitUntil_ends (fuel : nat) (ctx : Context) (d : Z) :
  deadline ctx = Some d ->
  forall (p : Poll) (w : World),
    (1 <= fuel)%nat ->
    d - now w <= (Z.of_nat fuel - 1) * (2 * Second) ->
    exists p' w',
      waitUntil cluster fuel (pollAPI cluster) (2 * Second) ctx p w = Some (p', w')
      /\ (cancelled p' = true \/ d <= now w')
      /\ (cancelled p' = true ->
          cancelled p = true \/ exists version, In (apiUp version) (effects w')).
Proof.
  intros Hd. induction fuel as [|fuel IH]; intros p w Hf Hb; [lia|].
  rewrite waitUntil_turn. unfold expired. rewrite Hd.
  destruct (cancelled p) eqn:Ecp; cbn [orb].
  { exists p, w. split; [reflexivity|]. split; [now left | intros _; now left]. }
  destruct (d <=? now w) eqn:E0.
  { apply Z.leb_le in E0. exists p, w. split; [reflexivity|].
    split; [now right|]. intros H. rewrite Ecp in H. discriminate H. }
  apply Z.leb_gt in E0.
  destruct (pollAPI_call p w) as (p1 & w1 & Hc & Hq & Hnow & Hans).
  rewrite Hc.
  pose proof (pollAPI_cancels p w p1 w1 Ecp Hc) as Hup.
  destruct (cancelled p1) eqn:Ec1; cbn [orb].
  { exists p1, w1. split; [reflexivity|]. split; [now left|].
    intros _. right. now apply Hup. }
  destruct (d <=? now w1) eqn:E1.
  { apply Z.leb_le in E1. exists p1, w1. split; [reflexivity|].
    split; [now right|]. intros H. rewrite Ec1 in H. discriminate H. }
  apply Z.leb_gt in E1.
  destruct (d <=? now w1 + 2 * Second) eqn:E2.
  { destruct ((d =? now w1 + 2 * Second) && timerFirst cluster).
    - destruct (pollAPI_call p1 (ahead w1 (d - now w1)))
        as (p2 & w2 & Hc2 & _ & Hn2 & _).
      exists p2, w2. split; [exact Hc2|].
      split; [right; cbn [now ahead] in Hn2; lia|].
      intros H. right. exact (pollAPI_cancels _ _ _ _ Ec1 Hc2 H).
    - exists p1, (ahead w1 (d - now w1)). split; [reflexivity|].
      split; [right; cbn [now ahead]; lia|].
      intros H. rewrite Ec1 in H. discriminate H. }
  apply Z.leb_gt in E2.
  destruct (IH p1 (ahead w1 (2 * Second))) as (p' & w' & Hr & Hend & Hcan).
  - unfold Second in *. lia.
  - cbn [now ahead]. unfold Second in *. lia.
  - exists p', w'. split; [exact Hr|]. split; [exact Hend|].
    intros H. right.
    destruct (Hcan H) as [H1 | H1]; [rewrite Ec1 in H1; discriminate H1 | exact H1].
Qed.

(** A context made by [WithTimeout] has a deadline, no later than the
    timeout from now, and exactly then under a parent without one. *)
Lemma WithTimeout_deadline (ctx : Context) (d t : Z) :
  exists limit,
    deadline (WithTimeout ctx d t) = Some limit
    /\ limit <= t + d
    /\ (deadline ctx = None -> limit = t + d).
Proof.
  unfold WithTimeout. destruct (deadline ctx) as [parent|]; cbn.
  - exists (Z.min parent (t + d)). split; [reflexivity|].
    split; [lia | discriminate].
  - exists (t + d). split; [reflexivity|]. split; [lia | reflexivity].
Qed.

(** The wait for the API is the poll under a 30-minute context. *)
Lemma waitForAPI_unfold (fuel : nat) (ctx : Context) (w : World) :
  waitForAPI cluster fuel ctx w
  = waitUntil cluster fuel (pollAPI cluster) (2 * Second)
      (WithTimeout ctx apiTimeout (now w)) pollStart
      (logged w InfoLevel "Waiting 30m0s for the Kubernetes API...").
Proof. reflexivity. Qed.

(** [Until], a parameter of [destroyBootstrap]. *)
Variable Until :
  Context -> string -> @WatcherFunc Watcher -> ConditionFunc ->
  R (option WatchEvent * option error).

(** C2 (as amended): once the hook, the kubeconfig and the client are
    there, the wait for the API ends (given fuel for its 30 minutes),
    either because a version query succeeded, or because the deadline
    of 30 minutes from its start has passed; in both cases the wait for
    the bootstrap-complete event begins then, at the time the first
    wait ended, under a deadline of its own: 30 minutes from that time,
    whatever the first wait has used. *)
Theorem destroyBootstrap_waits_in_sequence (fuel : nat) (w : World) :
  fileHook cluster = None ->
  kubeconfig cluster = None ->
  newClient cluster = None ->
  (901 <= fuel)%nat ->
  exists p w1,
    waitForAPI cluster fuel Background w = Some (p, w1)
    /\ ((cancelled p = true
         /\ exists version, In (apiUp version) (effects w1))
        \/ now w + apiTimeout <= now w1)
    /\ let eventContext := {| deadline := Some (now w1 + eventTimeout) |} in
       destroyBootstrap cluster Until fuel Background w
       = afterUntil cluster
           (Until eventContext "" (openWatch cluster fuel eventContext)
                  bootstrapComplete (enteringUntil w1 eventContext)).
Proof.
  intros Hh Hk Hc Hfuel.
  unfold destroyBootstrap. rewrite Hh, Hk, Hc.
  unfold bind at 1. rewrite waitForAPI_unfold.
  destruct (WithTimeout_deadline Background apiTimeout (now w))
    as (d & Hd & _ & Heq).
  specialize (Heq eq_refl). subst d.
  destruct (waitUntil_ends fuel _ _ Hd pollStart
              (logged w InfoLevel "Waiting 30m0s for the Kubernetes API..."))
    as (p & w1 & Hr & Hend & Hup).
  - lia.
  - cbn [now logged]. unfold apiTimeout, Minute, Second in *. lia.
  - exists p, w1. split; [exact Hr|]. split.
    + destruct (cancelled p) eqn:Ec.
      * left. split; [reflexivity|].
        destruct (Hup eq_refl) as [H | H]; [discriminate H | exact H].
      * right. destruct Hend as [H | H]; [discriminate H | exact H].
    + cbv zeta.
      set (eventContext := {| deadline := Some (now w1 + eventTimeout) |}).
      rewrite Hr.
      unfold bind at 1. unfold waitForEvent.
      unfold afterUntil, enteringUntil, eventContext, bind, log, emit, clock,
        ret, WithTimeout, Background.
      cbn [deadline now trace queries watches snd].
      match goal with
      | |- context [Until ?c ?rv ?open ?cond ?w0] =>
          destruct (Until c rv open cond w0) as [[[event [err|]] w2]|]
      end; reflexivity.
Qed.

End Cluster.

End destroyBootstrap_facts.

Module destroyBootstrap_examples.

Import create create_terms destroyBootstrap_inputs destroyBootstrap_facts.

Local Open Scope Z_scope.

(** C2 (as stated) fails: the API never answers, the first wait runs
    into its deadline after 1800 seconds without reporting success (the
    info log has no "API ... up" line), and the wait for the event
    begins all the same, with a deadline at 3600 seconds. *)
Lemma destroyBootstrap_event_wait_without_API :
  let run :=
    destroyBootstrap (downCluster 298000000000) (specUntil 10) 901
                     Background world0 in
  option_map (fun r => filter isInfo (effects (snd r))) run
  = Some [Log InfoLevel "Waiting 30m0s for the Kubernetes API...";
          Log InfoLevel "Waiting 30m0s for the bootstrap-complete event..."]
  /\ option_map (fun r => filter isCallUntil (trace (snd r))) run
     = Some [(1800 * Second,
              CallUntil {| deadline := Some (3600 * Second) |} "")]
  /\ option_map fst run
     = Some (Some (Wrap ErrWaitTimeout "waiting for bootstrap-complete")).
Proof. cbv zeta. repeat split; vm_compute; reflexivity. Qed.

(** C2 (as amended) at the cluster that never comes up. *)
Lemma destroyBootstrap_waits_in_sequence_witness :
  exists p w1,
    waitForAPI (downCluster 298000000000) 901 Background world0 = Some (p, w1)
    /\ ((cancelled p = true
         /\ exists version, In (apiUp version) (effects w1))
        \/ now world0 + apiTimeout <= now w1)
    /\ let eventContext := {| deadline := Some (now w1 + eventTimeout) |} in
       destroyBootstrap (downCluster 298000000000) (specUntil 10) 901
                        Background world0
       = afterUntil (downCluster 298000000000)
           (specUntil 10 eventContext ""
              (openWatch (downCluster 298000000000) 901 eventContext)
              bootstrapComplete (enteringUntil w1 eventContext)).
Proof.
  exact (destroyBootstrap_waits_in_sequence
           (downCluster 298000000000) (specUntil 10) 901 world0
           eq_refl eq_refl eq_refl (le_n 901)).
Defined.

(** C5: the claim fails on the code at the Error event by which the API
    server reports a resource version that is too old.  The object of
    such an event is a Status, so the type assertion of lines 239-242
    returns (false, nil) before the branch of lines 244-247 is reached:
    the event is skipped and no line is logged for it.  That branch,
    which is there to log Error events, logs the Error event whose
    object is a core Event. *)
Theorem bootstrapComplete_error_status_not_logged :
  we_Type tooOld = WatchError
  /\ bootstrapComplete tooOld world0 = Some ((false, None), world0)
  /\ trace world0 = []
  /\ we_Type errorOfEvent = WatchError
  /\ option_map (fun r => (fst r, effects (snd r)))
       (bootstrapComplete errorOfEvent world0)
     = Some ((false, None),
             [Log DebugLevel "error bootstrap-failed: the control plane is gone"]).
Proof. repeat split. Qed.

(** C6 (as stated) fails: with a deadline at 5 seconds and attempts
    that are refused after 1 second each, the opener tries at 0, 3 and
    6 seconds and then returns the refusal itself, which is not the
    timeout error. *)
Lemma openWatch_returns_transport_error :
  option_map fst (openWatch (downCluster 1000000000) 10 fiveSeconds "" world0)
  = Some (None, Some watchRefused)
  /\ snd (Watch (downCluster 1000000000) 2 "") = (None, Some watchRefused)
  /\ option_map (fun r => (now (snd r), watches (snd r)))
       (openWatch (downCluster 1000000000) 10 fiveSeconds "" world0)
     = Some (7 * Second, 3%nat)
  /\ watchRefused <> ErrWaitTimeout.
Proof. repeat split; try (vm_compute; reflexivity). discriminate. Qed.

(** C6 (as amended) at the first attempt of that run. *)
Lemma openWatch_retries_until_deadline_witness :
  let tried := attempted world0 "" 1000000000 in
  (expired fiveSeconds (now tried) = false ->
   openWatch (downCluster 1000000000) 3 fiveSeconds "" world0
   = openWatch (downCluster 1000000000) 2 fiveSeconds ""
               (backedOff tried watchRefused)
   /\ now (backedOff tried watchRefused) = now tried + 2 * Second)
  /\ (expired fiveSeconds (now tried) = true ->
      openWatch (downCluster 1000000000) 3 fiveSeconds "" world0
      = Some ((None, Some watchRefused), tried))
  /\ (forall d,
        deadline fiveSeconds = Some d ->
        d - now world0 <= Z.of_nat 2 * (2 * Second) ->
        exists res w',
          openWatch (downCluster 1000000000) 3 fiveSeconds "" world0
          = Some (res, w')
          /\ (snd res <> None -> d <= now w')).
Proof.
  exact (openWatch_retries_until_deadline
           (downCluster 1000000000) 2 fiveSeconds "" world0
           1000000000 None watchRefused eq_refl).
Defined.

(** C7: the claim fails on the code at a cluster whose version queries
    fail with an error whose text ends in a colon.  The signature of
    that error, the text after its last colon, is empty, and so is the
    "previously logged" signature that the closure starts with (line
    191): the first failure, before which no line was logged and which
    the claim's rule therefore logs, counts as a repeat and leaves no
    line.  The first query starts at 0 seconds and fails at 1; what
    follows it in the trace is the next query, at 3 seconds; the first
    "Still waiting" line is that of the 15th failure, at 43 seconds. *)
Theorem waitForAPI_empty_signature_not_logged :
  let run := waitForAPI behindProxy 901 Background world0 in
  answers behindProxy 0 1 = [inr proxyError]
  /\ errorSuffix proxyError = ""
  /\ claimedLogged None 0 [errorSuffix proxyError] = [true]
  /\ snd (onQueryError pollStart proxyError) = false
  /\ option_map (fun r => firstn 3 (inSeconds (trace (snd r)))) run
     = Some [(0, Log InfoLevel "Waiting 30m0s for the Kubernetes API...");
             (0, QueryVersion);
             (3, QueryVersion)]
  /\ option_map (fun r => firstn 2 (inSeconds (filter isLog (trace (snd r))))) run
     = Some [(0, Log InfoLevel "Waiting 30m0s for the Kubernetes API...");
             (43, Log DebugLevel
                    "Still waiting for the Kubernetes API: proxy error:")].
Proof. cbv zeta. repeat split; vm_compute; reflexivity. Qed.

(** A few runs, for orientation. *)

(** The rule on 31 failures of one kind: lines at the first, the 16th
    and the 31st. *)
Example stillWaitingLogged_same_signature :
  stillWaitingLogged "" 0 (repeat " connection refused" 31)
  = [true] ++ repeat false 14 ++ [true] ++ repeat false 14 ++ [true].
Proof. reflexivity. Qed.

(** A first failure whose text ends in a colon has the empty signature,
    the one the closure starts with: it is not logged. *)
Example empty_signature_repeats_the_start :
  errorSuffix (New "proxy error:") = ""
  /\ snd (onQueryError pollStart (New "proxy error:")) = false
  /\ stillWaitingLogged "" 0 [errorSuffix (New "proxy error:")] = [false].
Proof. repeat split. Qed.

(** The log of the whole command against the cluster that comes up,
    with the time of each line in seconds: queries start every 3
    seconds; the refusal is logged at its first and at its 16th return,
    the change to EOF at once, then the success; the event wait starts
    at that very time and ends with the second event. *)
Example destroyBootstrap_cluster_comes_up :
  option_map (fun r => (fst r, inSeconds (filter isLog (trace (snd r)))))
    (destroyBootstrap comingUp (specUntil 10) 901 Background world0)
  = Some
      (None,
       [ (0, Log InfoLevel "Waiting 30m0s for the Kubernetes API...");
         (1, Log DebugLevel
               "Still waiting for the Kubernetes API: Get https://api.test:6443/version: dial tcp 10.0.0.1:6443: connect: connection refused");
         (46, Log DebugLevel
                "Still waiting for the Kubernetes API: Get https://api.test:6443/version: dial tcp 10.0.0.1:6443: connect: connection refused");
         (52, Log DebugLevel
                "Still waiting for the Kubernetes API: Get https://api.test:6443/version: EOF");
         (61, Log InfoLevel "API v1.11.0+d4cacc0 up");
         (61, Log InfoLevel "Waiting 30m0s for the bootstrap-complete event...");
         (61, Log DebugLevel "added bootstrap-success: pods are running");
         (61, Log DebugLevel
                "added bootstrap-complete: cluster bootstrapping has completed");
         (61, Log InfoLevel "Destroying the bootstrap resources...") ]).
Proof. vm_compute. reflexivity. Qed.

Example destroyBootstrap_cluster_comes_up_event_deadline :
  option_map (fun r => inSeconds (filter isCallUntil (trace (snd r))))
    (destroyBootstrap comingUp (specUntil 10) 901 Background world0)
  = Some [(61, CallUntil {| deadline := Some (1861 * Second) |} "")].
Proof. vm_compute. reflexivity. Qed.

End destroyBootstrap_examples.

(* ================================================================== *)
(** * More properties of runTargetCmd *)
(* ================================================================== *)

Module runTargetCmd_more.

Import create create_terms more_terms runTargetCmd_facts.

(** [strings.Trim] takes the cut byte off both ends and nothing else. *)
Lemma TrimLeft_cut (s : string) (cut : ascii) :
  exists n,
    s = (repeated cut n ++ strings.TrimLeft s cut)%string
    /\ firstByte (strings.TrimLeft s cut) <> Some cut.
Proof.
  induction s as [|c s IH]; cbn.
  - exists 0%nat. split; [reflexivity | discriminate].
  - destruct (Ascii.eqb c cut) eqn:Ec.
    + apply Ascii.eqb_eq in Ec. subst c.
      destruct IH as (n & Hs & Hf). exists (S n). cbn.
      split; [now rewrite <- Hs | exact Hf].
    + apply Ascii.eqb_neq in Ec. exists 0%nat.
      split; [reflexivity|]. cbn. intros H. injection H as H. now apply Ec.
Qed.

Lemma TrimRight_cut (s : string) (cut : ascii) :
  exists m,
    s = (strings.TrimRight s cut ++ repeated cut m)%string
    /\ lastByte (strings.TrimRight s cut) <> Some cut
    /\ (firstByte s <> Some cut ->
        firstByte (strings.TrimRight s cut) <> Some cut).
Proof.
  induction s as [|c s IH].
  - exists 0%nat. cbn. repeat split; discriminate.
  - destruct IH as (m & Hs & Hl & _). cbn [strings.TrimRight].
    destruct (strings.TrimRight s cut) as [|b t] eqn:Et.
    + cbn in Hs. destruct (Ascii.eqb c cut) eqn:Ec.
      * apply Ascii.eqb_eq in Ec. subst c. exists (S m). cbn.
        split; [now rewrite <- Hs|]. split; [discriminate|].
        intros H. now contradiction H.
      * apply Ascii.eqb_neq in Ec. exists m. cbn.
        split; [now rewrite <- Hs|].
        split; [intros H | intros _ H]; injection H as H; now apply Ec.
    + exists m. split; [cbn; now rewrite Hs|].
      split; [exact Hl|]. cbn. intros H. exact H.
Qed.

Lemma Trim_cut (s : string) (cut : ascii) :
  exists n m,
    s = (repeated cut n ++ strings.Trim s cut ++ repeated cut m)%string
    /\ firstByte (strings.Trim s cut) <> Some cut
    /\ lastByte (strings.Trim s cut) <> Some cut.
Proof.
  unfold strings.Trim.
  destruct (TrimLeft_cut s cut) as (n & Hs & Hf).
  destruct (TrimRight_cut (strings.TrimLeft s cut) cut) as (m & Ht & Hl & Hk).
  exists n, m. split; [|split; [now apply Hk | exact Hl]].
  now rewrite <- Ht.
Qed.

Section Facts.

Context {Asset Disk : Type}.
Variable Name : Asset -> string.
Variable setupFileHook : Disk -> Disk * option error.
Variable cleanup : Disk -> Disk.
Variable NewStore : Disk -> Disk * option error.
Variable Fetch : Asset -> Disk -> Disk * option error.
Variable PersistToFile : Asset -> Disk -> Disk * option error.

Local Abbreviation fetchAll := (fetchAll Name Fetch PersistToFile).
Local Abbreviation runTargetCmd :=
  (runTargetCmd Name setupFileHook cleanup NewStore Fetch PersistToFile).

Lemma on_disk_actions (f : Disk -> Disk * option error) (r : @Run Asset Disk) :
  actions (fst (on_disk f r)) = actions r.
Proof. unfold on_disk. now destruct (f (disk r)). Qed.

Lemma wrapFetchError_touched (a : Asset) (err : option error)
    (r : @Run Asset Disk) :
  touched (actions (fst (wrapFetchError Name a err r))) = touched (actions r)
  /\ disk (fst (wrapFetchError Name a err r)) = disk r
  /\ (snd (wrapFetchError Name a err r) = None <-> err = None).
Proof.
  unfold wrapFetchError. destruct err as [e|]; cbn.
  - split; [|split; [|split; intros H; discriminate H]].
    + destruct (Cause e) as [| | | status [|c stderr] |]; cbn; try reflexivity.
      unfold touched. rewrite filter_app. cbn. now rewrite app_nil_r.
    + destruct (Cause e) as [| | | status [|c stderr] |]; reflexivity.
  - repeat split; auto.
Qed.

(** The loop touches the assets in order: each one it reaches is
    fetched and then persisted, and it reaches all of them when it
    returns nil. *)
Lemma fetchAll_touched (targets : list Asset) :
  forall r : @Run Asset Disk,
    exists k,
      (k <= length targets)%nat
      /\ touched (actions (fst (fetchAll targets r)))
         = touched (actions r) ++ fetchedAndPersisted (firstn k targets)
      /\ (snd (fetchAll targets r) = None -> k = length targets).
Proof.
  induction targets as [|a rest IH]; intros r.
  - exists 0%nat. cbn. rewrite app_nil_r. repeat split; auto.
  - cbn [create.fetchAll].
    pose proof (on_disk_actions (Fetch a) (act (DoFetch a) r)) as H1.
    destruct (on_disk (Fetch a) (act (DoFetch a) r)) as [r1 err0].
    pose proof (wrapFetchError_touched a err0 r1) as (H2 & _ & _).
    destruct (wrapFetchError Name a err0 r1) as [r2 err].
    pose proof (on_disk_actions (PersistToFile a) (act (DoPersist a) r2)) as H3.
    destruct (on_disk (PersistToFile a) (act (DoPersist a) r2)) as [r3 err2].
    cbn [fst snd actions act] in H1, H2, H3.
    assert (H : touched (actions r3)
                = touched (actions r) ++ [DoFetch a; DoPersist a]).
    { rewrite H3. unfold touched in *. rewrite filter_app, H2, H1, filter_app.
      cbn. now rewrite <- app_assoc. }
    destruct err2 as [e2|]; destruct err as [e|]; cbn [fst snd].
    + exists 1%nat. cbn [length firstn fetchedAndPersisted flat_map].
      split; [lia|]. split; [|discriminate].
      unfold act. cbn [actions]. unfold touched in *. rewrite filter_app, H.
      cbn. now rewrite !app_nil_r.
    + exists 1%nat. cbn [length firstn fetchedAndPersisted flat_map].
      split; [lia|]. split; [|discriminate]. rewrite H. now rewrite app_nil_r.
    + exists 1%nat. cbn [length firstn fetchedAndPersisted flat_map].
      split; [lia|]. split; [|discriminate]. rewrite H. now rewrite app_nil_r.
    + destruct (IH r3) as (k & Hk & Ht & Hn). exists (S k).
      cbn [length firstn fetchedAndPersisted flat_map].
      split; [lia|]. split.
      * rewrite Ht, H, <- app_assoc. reflexivity.
      * intros Hr. now rewrite (Hn Hr).
Qed.

(** X1: whatever happens, the command touches the targets in their
    order and never fetches an asset without trying to persist it: the
    fetches and persistences of a run are those of the first [k]
    targets, one pair per asset, and [k] is the number of targets when
    the command returns nil. *)
Theorem runTargetCmd_fetches_in_pairs (targets : list Asset)
    (r : @Run Asset Disk) :
  exists k,
    (k <= length targets)%nat
    /\ touched (actions (fst (runTargetCmd targets r)))
       = touched (actions r) ++ fetchedAndPersisted (firstn k targets)
    /\ (snd (runTargetCmd targets r) = None -> k = length targets).
Proof.
  unfold create.runTargetCmd.
  pose proof (on_disk_actions setupFileHook r) as H1.
  destruct (on_disk setupFileHook r) as [r1 [e|]]; cbn [fst snd] in *.
  { exists 0%nat. cbn. rewrite H1, app_nil_r.
    split; [lia|]. split; [reflexivity | discriminate]. }
  pose proof (on_disk_actions NewStore r1) as H2.
  destruct (on_disk NewStore r1) as [r2 [e|]]; cbn [fst snd] in *.
  { exists 0%nat. cbn. rewrite H2, H1, app_nil_r.
    split; [lia|]. split; [reflexivity | discriminate]. }
  destruct (fetchAll_touched targets r2) as (k & Hk & Ht & Hn).
  destruct (create.fetchAll Name Fetch PersistToFile targets r2) as [r3 res].
  cbn [fst snd actions] in *. exists k. rewrite Ht, H2, H1.
  split; [exact Hk|]. split; [reflexivity | exact Hn].
Qed.

(** An asset that is fetched and persisted without an error. *)
Lemma fetchAll_goes_on (a : Asset) (rest : list Asset) (r : @Run Asset Disk)
    (d1 d2 : Disk) :
  Fetch a (disk r) = (d1, None) ->
  PersistToFile a d1 = (d2, None) ->
  fetchAll (a :: rest) r
  = fetchAll rest
      {| disk := d2; actions := (actions r ++ [DoFetch a]) ++ [DoPersist a] |}.
Proof.
  intros Hf Hp. cbn [create.fetchAll]. unfold on_disk, act.
  cbn [disk actions]. rewrite Hf. cbn [wrapFetchError disk actions].
  now rewrite Hp.
Qed.

Lemma fetchAll_all_succeed (targets : list Asset) :
  (forall a x, In a targets -> snd (Fetch a x) = None) ->
  (forall a x, In a targets -> snd (PersistToFile a x) = None) ->
  forall r : @Run Asset Disk,
    snd (fetchAll targets r) = None
    /\ actions (fst (fetchAll targets r))
       = actions r ++ fetchedAndPersisted targets.
Proof.
  induction targets as [|a rest IH]; intros Hf Hp r.
  - cbn. now rewrite app_nil_r.
  - pose proof (Hf a (disk r) (or_introl eq_refl)) as Hfa.
    destruct (Fetch a (disk r)) as [d1 err0] eqn:Ef. cbn in Hfa. subst err0.
    pose proof (Hp a d1 (or_introl eq_refl)) as Hpa.
    destruct (PersistToFile a d1) as [d2 err2] eqn:Ep. cbn in Hpa. subst err2.
    rewrite (fetchAll_goes_on a rest r d1 d2 Ef Ep).
    destruct (IH (fun b x H => Hf b x (or_intror H))
                 (fun b x H => Hp b x (or_intror H))
                 {| disk := d2;
                    actions := (actions r ++ [DoFetch a]) ++ [DoPersist a] |})
      as (Hr & Ha).
    split; [exact Hr|]. rewrite Ha. cbn [actions fetchedAndPersisted flat_map].
    rewrite <- !app_assoc. reflexivity.
Qed.

(** X2: when the hook and the store are set up and no target fails to
    fetch or to persist, the command returns nil, has fetched and
    persisted every target in order, each persisted right after its
    fetch, and has logged nothing. *)
Theorem runTargetCmd_all_succeed (targets : list Asset)
    (r : @Run Asset Disk) (d d0 : Disk) :
  setupFileHook (disk r) = (d, None) ->
  NewStore d = (d0, None) ->
  (forall a x, In a targets -> snd (Fetch a x) = None) ->
  (forall a x, In a targets -> snd (PersistToFile a x) = None) ->
  snd (runTargetCmd targets r) = None
  /\ actions (fst (runTargetCmd targets r))
     = actions r ++ fetchedAndPersisted targets.
Proof.
  intros Hh Hs Hf Hp. unfold create.runTargetCmd, on_disk.
  rewrite Hh. cbn [disk actions]. rewrite Hs.
  destruct (fetchAll_all_succeed targets Hf Hp
              {| disk := d0; actions := actions r |}) as (Hr & Ha).
  destruct (create.fetchAll Name Fetch PersistToFile targets _) as [r3 res].
  cbn [fst snd actions] in *. split; [exact Hr | exact Ha].
Qed.

(** X3: when the assets before [a] went through, [a] is fetched and its
    persistence fails with [e2], the command returns that error,
    wrapped with the name of the asset ("failed to write asset (...)
    to disk"); nothing is logged and the assets after [a] are not
    touched. *)
Theorem runTargetCmd_persist_fails
    (before after : list Asset) (a : Asset) (r0 r : @Run Asset Disk)
    (d d0 d1 d2 : Disk) (e2 : error) :
  setupFileHook (disk r0) = (d, None) ->
  NewStore d = (d0, None) ->
  fetchAll before {| disk := d0; actions := actions r0 |} = (r, None) ->
  Fetch a (disk r) = (d1, None) ->
  PersistToFile a d1 = (d2, Some e2) ->
  runTargetCmd (before ++ a :: after) r0
  = ({| disk := cleanup d2;
        actions := actions r ++ [DoFetch a; DoPersist a] |},
     Some (Wrap e2 ("failed to write asset (" ++ Name a ++ ") to disk"))).
Proof.
  intros Hh Hs Hb Hf Hp. unfold create.runTargetCmd, on_disk.
  rewrite Hh. cbn [disk actions]. rewrite Hs.
  rewrite (fetchAll_app Name Fetch PersistToFile before (a :: after) _ r Hb).
  cbn [create.fetchAll]. unfold on_disk, act. cbn [disk actions].
  rewrite Hf. cbn [wrapFetchError disk actions]. rewrite Hp.
  cbn [disk actions]. rewrite <- app_assoc. reflexivity.
Qed.

(** X4: when the assets before [a] went through, the fetch of [a] fails
    with [e] and its persistence succeeds, the asset is persisted all
    the same, the command returns the fetch error wrapped with the name
    of the asset, and the assets after [a] are not touched. *)
Theorem runTargetCmd_fetch_fails_alone
    (before after : list Asset) (a : Asset) (r0 r : @Run Asset Disk)
    (d d0 d1 d2 : Disk) (e : error) :
  setupFileHook (disk r0) = (d, None) ->
  NewStore d = (d0, None) ->
  fetchAll before {| disk := d0; actions := actions r0 |} = (r, None) ->
  Fetch a (disk r) = (d1, Some e) ->
  PersistToFile a d1 = (d2, None) ->
  runTargetCmd (before ++ a :: after) r0
  = ({| disk := cleanup d2;
        actions := actions r ++ [DoFetch a] ++ exitOutput e ++ [DoPersist a] |},
     Some (Wrap e ("failed to fetch " ++ Name a))).
Proof.
  intros Hh Hs Hb Hf Hp. unfold create.runTargetCmd, on_disk.
  rewrite Hh. cbn [disk actions]. rewrite Hs.
  rewrite (fetchAll_app Name Fetch PersistToFile before (a :: after) _ r Hb).
  cbn [create.fetchAll]. unfold on_disk, act, wrapFetchError, exitOutput.
  cbn [disk actions]. rewrite Hf.
  destruct (Cause e) as [| | | status [|c stderr] |] eqn:Ec; cbn;
    rewrite Hp; cbn; rewrite <- ?app_assoc; reflexivity.
Qed.

(** X5: a failure to set up the log hook or the asset store is returned
    wrapped, and no asset is fetched or persisted; the cleanup of the
    hook runs when the store fails, and does not run when the hook
    itself fails. *)
Theorem runTargetCmd_setup_fails (targets : list Asset)
    (r : @Run Asset Disk) (d : Disk) (e : error) :
  (setupFileHook (disk r) = (d, Some e) ->
   runTargetCmd targets r
   = ({| disk := d; actions := actions r |},
      Some (Wrap e "failed to setup logging hook")))
  /\ (forall d0,
        setupFileHook (disk r) = (d, None) ->
        NewStore d = (d0, Some e) ->
        runTargetCmd targets r
        = ({| disk := cleanup d0; actions := actions r |},
           Some (Wrap e "failed to create asset store"))).
Proof.
  unfold create.runTargetCmd, on_disk. split.
  - intros Hh. now rewrite Hh.
  - intros d0 Hh Hs. rewrite Hh. cbn [disk actions]. now rewrite Hs.
Qed.

(** X6: when the cause of a fetch error is an [*exec.ExitError] that
    captured output, that output is logged at error level before the
    error is wrapped: all of it but the newlines at its two ends (so an
    output of newlines only gives an empty line). *)
Theorem fetch_error_output_trimmed (a : Asset) (e : error)
    (r : @Run Asset Disk) (status stderr : string) :
  Cause e = ExitError status stderr ->
  stderr <> "" ->
  exists line n m,
    wrapFetchError Name a (Some e) r
    = (act (DoLog ErrorLevel line) r,
       Some (Wrap e ("failed to fetch " ++ Name a)))
    /\ stderr = (repeated strings.newline n ++ line
                 ++ repeated strings.newline m)%string
    /\ firstByte line <> Some strings.newline
    /\ lastByte line <> Some strings.newline.
Proof.
  intros Hc Hn.
  destruct (Trim_cut stderr strings.newline) as (n & m & Hs & Hf & Hl).
  exists (strings.Trim stderr strings.newline), n, m.
  split; [|split; [exact Hs | split; [exact Hf | exact Hl]]].
  unfold wrapFetchError. rewrite Hc.
  destruct stderr as [|c stderr]; [now contradiction Hn | reflexivity].
Qed.

End Facts.

End runTargetCmd_more.

Module runTargetCmd_more_examples.

Import create create_terms more_terms runTargetCmd_inputs more_inputs.
Import runTargetCmd_more.

(** X2 at the manifests target. *)
Lemma runTargetCmd_all_succeed_witness :
  snd (runTargetCmd (fun a => a) hookOK cleanupNothing storeOK
                    fetchOK persistOK ["Manifests"; "Openshift Manifests"] start)
  = None
  /\ actions (fst (runTargetCmd (fun a => a) hookOK cleanupNothing storeOK
                     fetchOK persistOK ["Manifests"; "Openshift Manifests"] start))
     = actions start
       ++ fetchedAndPersisted ["Manifests"; "Openshift Manifests"].
Proof.
  exact (runTargetCmd_all_succeed
           (fun a => a) hookOK cleanupNothing storeOK fetchOK persistOK
           ["Manifests"; "Openshift Manifests"] start [] []
           eq_refl eq_refl (fun _ _ _ => eq_refl) (fun _ _ _ => eq_refl)).
Defined.

(** X3 at the cluster target, when only the disk fails. *)
Lemma runTargetCmd_persist_fails_witness :
  runTargetCmd (fun a => a) hookOK cleanupNothing storeOK
               fetchOK persistCluster
               (["Terraform Variables"; "Kubeconfig Admin"]
                  ++ "Cluster" :: ["Metadata"]) start
  = ({| disk := ["Terraform Variables"; "Kubeconfig Admin"];
        actions :=
          [DoFetch "Terraform Variables"; DoPersist "Terraform Variables";
           DoFetch "Kubeconfig Admin"; DoPersist "Kubeconfig Admin"]
          ++ [DoFetch "Cluster"; DoPersist "Cluster"] |},
     Some (Wrap writeError ("failed to write asset (" ++ "Cluster" ++ ") to disk"))).
Proof.
  exact (runTargetCmd_persist_fails
           (fun a => a) hookOK cleanupNothing storeOK fetchOK persistCluster
           ["Terraform Variables"; "Kubeconfig Admin"] ["Metadata"] "Cluster"
           start
           {| disk := ["Terraform Variables"; "Kubeconfig Admin"];
              actions :=
                [DoFetch "Terraform Variables"; DoPersist "Terraform Variables";
                 DoFetch "Kubeconfig Admin"; DoPersist "Kubeconfig Admin"] |}
           [] [] ["Terraform Variables"; "Kubeconfig Admin"]
           ["Terraform Variables"; "Kubeconfig Admin"]
           writeError eq_refl eq_refl eq_refl eq_refl eq_refl).
Defined.

(** X4 at the cluster target, when only terraform fails. *)
Lemma runTargetCmd_fetch_fails_alone_witness :
  runTargetCmd (fun a => a) hookOK cleanupNothing storeOK
               fetchCluster persistOK
               (["Terraform Variables"; "Kubeconfig Admin"]
                  ++ "Cluster" :: ["Metadata"]) start
  = ({| disk := ["Terraform Variables"; "Kubeconfig Admin"; "Cluster"];
        actions :=
          [DoFetch "Terraform Variables"; DoPersist "Terraform Variables";
           DoFetch "Kubeconfig Admin"; DoPersist "Kubeconfig Admin"]
          ++ [DoFetch "Cluster"] ++ exitOutput tfError ++ [DoPersist "Cluster"] |},
     Some (Wrap tfError ("failed to fetch " ++ "Cluster"))).
Proof.
  exact (runTargetCmd_fetch_fails_alone
           (fun a => a) hookOK cleanupNothing storeOK fetchCluster persistOK
           ["Terraform Variables"; "Kubeconfig Admin"] ["Metadata"] "Cluster"
           start
           {| disk := ["Terraform Variables"; "Kubeconfig Admin"];
              actions :=
                [DoFetch "Terraform Variables"; DoPersist "Terraform Variables";
                 DoFetch "Kubeconfig Admin"; DoPersist "Kubeconfig Admin"] |}
           [] [] ["Terraform Variables"; "Kubeconfig Admin"]
           ["Terraform Variables"; "Kubeconfig Admin"; "Cluster"]
           tfError eq_refl eq_refl eq_refl eq_refl eq_refl).
Defined.

(** X6 at the output of terraform. *)
Lemma fetch_error_output_trimmed_witness :
  exists line n m,
    wrapFetchError (fun a : string => a) "Cluster" (Some tfError) start
    = (act (DoLog ErrorLevel line) start,
       Some (Wrap tfError ("failed to fetch " ++ "Cluster")))
    /\ tfOutput = (repeated strings.newline n ++ line
                   ++ repeated strings.newline m)%string
    /\ firstByte line <> Some strings.newline
    /\ lastByte line <> Some strings.newline.
Proof.
  apply (fetch_error_output_trimmed
           (fun a : string => a) "Cluster" tfError start "exit status 1" tfOutput
           eq_refl).
  discriminate.
Defined.

(** The line of that run. *)
Example fetch_error_output_line :
  fst (wrapFetchError (fun a : string => a) "Cluster" (Some tfError) start)
  = act (DoLog ErrorLevel "Error: quota exceeded") start.
Proof. reflexivity. Qed.

End runTargetCmd_more_examples.

(* ================================================================== *)
(** * More properties of destroyBootstrap *)
(* ================================================================== *)

Module destroyBootstrap_more.

Import create create_more create_terms more_terms destroyBootstrap_facts.

Local Open Scope Z_scope.

Lemma stillWaitingLogged_length (signatures : list string) :
  forall previous silent,
    length (stillWaitingLogged previous silent signatures) = length signatures.
Proof.
  induction signatures as [|s rest IH]; intros previous silent;
    cbn [stillWaitingLogged]; [reflexivity|].
  destruct (negb (String.eqb s previous) || Nat.eqb (S silent) 15);
    cbn [List.length]; f_equal; apply IH.
Qed.

(** The claim's rule never lets 15 failures pass without a line. *)
Lemma stillWaitingLogged_alive (signatures : list string) :
  forall previous silent,
    (silent < 15)%nat ->
    neverSilentFor 15 silent (stillWaitingLogged previous silent signatures).
Proof.
  induction signatures as [|s rest IH]; intros previous silent Hs;
    cbn [stillWaitingLogged]; [exact I|].
  destruct (negb (String.eqb s previous)) eqn:Ed; cbn [orb].
  - cbn [neverSilentFor]. apply IH. lia.
  - destruct (Nat.eqb (S silent) 15) eqn:En; cbn [neverSilentFor].
    + apply IH. lia.
    + apply Nat.eqb_neq in En. split; [lia|]. apply IH. lia.
Qed.

(** Once a line was logged the two readings of the rule agree, and
    they agree from the start when the first signature is not empty. *)
Lemma claimedLogged_some (signatures : list string) :
  forall previous silent,
    claimedLogged (Some previous) silent signatures
    = stillWaitingLogged previous silent signatures.
Proof.
  induction signatures as [|s rest IH]; intros previous silent;
    cbn [claimedLogged stillWaitingLogged]; [reflexivity|].
  destruct (negb (String.eqb s previous) || Nat.eqb (S silent) 15);
    f_equal; apply IH.
Qed.

Lemma claimedLogged_start (s : string) (rest : list string) :
  s <> ""%string ->
  claimedLogged None 0 (s :: rest) = stillWaitingLogged "" 0 (s :: rest).
Proof.
  intros Hs. cbn [claimedLogged stillWaitingLogged orb].
  apply String.eqb_neq in Hs. rewrite Hs. cbn [negb orb].
  f_equal. apply claimedLogged_some.
Qed.


Lemma pollEffects_begins (errs : list error) (logged : list bool)
    (tail : list effect) :
  beginsWithQuery tail ->
  beginsWithQuery (pollEffects errs logged ++ tail).
Proof.
  intros Ht. destruct errs as [|e errs]; [exact Ht|].
  destruct logged as [|b logged]; [exact Ht|]. reflexivity.
Qed.

Section Cluster.

Context {Watcher : Type}.
Variable cluster : @Cluster Watcher.

(** One call of the closure, in full. *)
Lemma pollAPI_step (p : Poll) (w : World) :
  exists p1 w1,
    pollAPI cluster p w = Some (p1, w1)
    /\ now w1 = now w + Z.of_N (fst (ServerVersion cluster (queries w)))
    /\ queries w1 = S (queries w)
    /\ (countdownInRange p -> countdownInRange p1).
Proof.
  unfold pollAPI, bind at 1, serverVersion.
  destruct (ServerVersion cluster (queries w)) as [took [version | e]]; cbn.
  - eexists _, _. split; [reflexivity|]. split; [reflexivity|].
    split; [reflexivity|]. intros H. exact H.
  - assert (Hr : countdownInRange p ->
                 countdownInRange (fst (onQueryError p e))).
    { unfold countdownInRange, onQueryError, logDownsample. intros H.
      destruct (negb (String.eqb (previousErrorSuffix p) (errorSuffix e)));
        cbn [fst silenceRemaining]; [lia|].
      destruct (silenceRemaining p - 1 =? 0) eqn:E0;
        cbn [fst silenceRemaining]; [lia|].
      apply Z.eqb_neq in E0. lia. }
    destruct (onQueryError p e) as [p' [|]]; cbn in *;
      (eexists _, _; split; [reflexivity|]; split; [reflexivity|];
       split; [reflexivity | exact Hr]).
Qed.

(** What a turn of the poll ends in: it stops at once, or after a call
    of the closure, or at the deadline less than two seconds later, or
    after one more call when the timer is served at the very instant of
    the deadline, or it goes on from the world two seconds later. *)
Lemma waitUntil_cases (fuel : nat) (ctx : Context) (p : Poll) (w : World)
    (p' : Poll) (w' : World) :
  waitUntil cluster (S fuel) (pollAPI cluster) (2 * Second) ctx p w = Some (p', w') ->
  (cancelled p || expired ctx (now w) = true /\ p' = p /\ w' = w)
  \/ (expired ctx (now w) = false
      /\ cancelled p = false
      /\ exists p1 w1,
           pollAPI cluster p w = Some (p1, w1)
           /\ now w1 = now w + Z.of_N (fst (ServerVersion cluster (queries w)))
           /\ queries w1 = S (queries w)
           /\ (countdownInRange p -> countdownInRange p1)
           /\ ((p' = p1 /\ w' = w1)
               \/ (exists d, deadline ctx = Some d /\ now w1 < d
                             /\ d <= now w1 + 2 * Second
                             /\ p' = p1 /\ w' = ahead w1 (d - now w1))
               \/ (exists d, deadline ctx = Some d
                             /\ d = now w1 + 2 * Second
                             /\ timerFirst cluster = true
                             /\ pollAPI cluster p1 (ahead w1 (2 * Second))
                                = Some (p', w')
                             /\ now w'
                                = d + Z.of_N (fst (ServerVersion cluster
                                                     (queries w1)))
                             /\ queries w' = S (queries w1)
                             /\ (countdownInRange p1 -> countdownInRange p'))
               \/ (expired ctx (now w1 + 2 * Second) = false
                   /\ waitUntil cluster fuel (pollAPI cluster) (2 * Second) ctx p1
                        (ahead w1 (2 * Second)) = Some (p', w')))).
Proof.
  intros H. rewrite waitUntil_turn in H.
  destruct (cancelled p || expired ctx (now w)) eqn:E0.
  { injection H as <- <-. left. repeat split. }
  apply orb_false_iff in E0. destruct E0 as (E0c & E0).
  right. split; [exact E0|]. split; [exact E0c|].
  destruct (pollAPI_step p w) as (p1 & w1 & Hc & Hn & Hq & Hr).
  rewrite Hc in H.
  exists p1, w1. split; [exact Hc|]. split; [exact Hn|].
  split; [exact Hq|]. split; [exact Hr|].
  destruct (cancelled p1 || expired ctx (now w1)) eqn:E1.
  { injection H as <- <-. left. split; reflexivity. }
  destruct (expired ctx (now w1 + 2 * Second)) eqn:E2.
  - apply orb_false_iff in E1. destruct E1 as (_ & E1).
    unfold expired in E1, E2.
    destruct (deadline ctx) as [d|]; [|discriminate E2].
    apply Z.leb_gt in E1. apply Z.leb_le in E2.
    destruct ((d =? now w1 + 2 * Second) && timerFirst cluster) eqn:Etie.
    + apply andb_true_iff in Etie. destruct Etie as (Ed & Etf).
      apply Z.eqb_eq in Ed.
      replace (d - now w1) with (2 * Second) in H by lia.
      destruct (pollAPI_step p1 (ahead w1 (2 * Second)))
        as (p2 & w2 & Hc2 & Hn2 & Hq2 & Hr2).
      rewrite Hc2 in H. injection H as <- <-.
      cbn [now queries ahead] in Hn2, Hq2.
      right. right. left. exists d.
      split; [reflexivity|]. split; [exact Ed|]. split; [exact Etf|].
      split; [exact Hc2|]. split; [lia|]. split; [exact Hq2 | exact Hr2].
    + injection H as <- <-. right. left. exists d.
      repeat split; assumption.
  - right. right. right. split; [reflexivity | exact H].
Qed.

(** With fuel for its 30 minutes the wait for the API returns. *)
Lemma waitForAPI_returns (fuel : nat) (ctx : Context) (w : World) :
  (901 <= fuel)%nat ->
  exists p' w' d,
    waitForAPI cluster fuel ctx w = Some (p', w')
    /\ deadline (WithTimeout ctx apiTimeout (now w)) = Some d
    /\ d <= now w + apiTimeout.
Proof.
  intros Hfuel. rewrite waitForAPI_unfold.
  destruct (WithTimeout_deadline ctx apiTimeout (now w)) as (d & Hd & Hle & _).
  destruct (waitUntil_ends cluster fuel _ d Hd pollStart
              (logged w InfoLevel "Waiting 30m0s for the Kubernetes API..."))
    as (p' & w' & Hr & _ & _).
  - lia.
  - cbn [now logged]. unfold apiTimeout, Minute, Second in *. lia.
  - exists p', w', d. split; [exact Hr|]. split; [exact Hd | exact Hle].
Qed.

(** The countdown stays in its range through the poll. *)
Lemma waitUntil_countdown (fuel : nat) (ctx : Context) :
  forall (p : Poll) (w : World) (p' : Poll) (w' : World),
    countdownInRange p ->
    waitUntil cluster fuel (pollAPI cluster) (2 * Second) ctx p w = Some (p', w') ->
    countdownInRange p'.
Proof.
  induction fuel as [|fuel IH]; intros p w p' w' Hp H; [discriminate H|].
  apply waitUntil_cases in H.
  destruct H as [(_ & -> & _) | (_ & _ & p1 & w1 & _ & _ & _ & Hr & H)];
    [exact Hp|].
  destruct H as [(-> & _) | [(d & _ & _ & _ & -> & _)
                            | [(d & _ & _ & _ & _ & _ & _ & Hr2) | (_ & H)]]];
    [now apply Hr | now apply Hr | exact (Hr2 (Hr Hp)) |].
  apply (IH _ _ _ _ (Hr Hp) H).
Qed.

(** X7: the countdown to the next "Still waiting" line, which starts at
    15, is between 1 and 15 when the wait for the API returns (and
    after every call of the closure): it is reset whenever it reaches
    0, so it never runs below 0 and the lines never stop. *)
Theorem waitForAPI_countdown_in_range (fuel : nat) (ctx : Context) (w : World) :
  (901 <= fuel)%nat ->
  exists p' w',
    waitForAPI cluster fuel ctx w = Some (p', w')
    /\ 1 <= silenceRemaining p' <= 15.
Proof.
  intros Hfuel.
  destruct (waitForAPI_returns fuel ctx w Hfuel) as (p' & w' & d & Hr & _).
  exists p', w'. split; [exact Hr|].
  rewrite waitForAPI_unfold in Hr.
  apply (waitUntil_countdown _ _ _ _ _ _) in Hr; [exact Hr|].
  unfold countdownInRange, pollStart, logDownsample. cbn. lia.
Qed.

(** X8: the poll shows that it is alive: in its trace no 15 failed
    queries in a row go without a "Still waiting" line. *)
Theorem waitForAPI_never_silent_for_15 (fuel : nat) (ctx : Context)
    (w : World) :
  (901 <= fuel)%nat ->
  exists p' w' errs logged up,
    waitForAPI cluster fuel ctx w = Some (p', w')
    /\ effects w'
       = effects w
         ++ Log InfoLevel "Waiting 30m0s for the Kubernetes API..."
            :: pollEffects errs logged ++ successEffects up
    /\ length logged = length errs
    /\ neverSilentFor 15 0 logged.
Proof.
  intros Hfuel.
  destruct (waitForAPI_returns fuel ctx w Hfuel) as (p' & w' & d & Hr & _).
  assert (Ht : tracks pollStart "" 0)
    by (unfold tracks, pollStart, logDownsample; cbn; repeat split; lia).
  pose proof Hr as Hr'. rewrite waitForAPI_unfold in Hr'.
  destruct (waitUntil_log cluster fuel _ _ _ _ _ _ "" 0%nat Ht Hr')
    as (errs & up & _ & He).
  exists p', w', errs, (stillWaitingLogged "" 0 (map errorSuffix errs)), up.
  split; [exact Hr|]. split.
  - rewrite He. unfold effects, logged. cbn [trace].
    rewrite map_app, <- app_assoc. reflexivity.
  - split.
    + now rewrite stillWaitingLogged_length, length_map.
    + apply stillWaitingLogged_alive. lia.
Qed.

(** The queries of the poll start at least two seconds apart, none
    after the deadline, and all before it unless the timer is served at
    the instant of the deadline. *)
Lemma waitUntil_query_bound (fuel : nat) (ctx : Context) (d : Z) :
  deadline ctx = Some d ->
  forall (p : Poll) (w : World) (p' : Poll) (w' : World),
    waitUntil cluster fuel (pollAPI cluster) (2 * Second) ctx p w = Some (p', w') ->
    queries w' = queries w
    \/ ((queries w < queries w')%nat
        /\ 2 * Second * (Z.of_nat (queries w' - queries w) - 1) <= d - now w
        /\ (timerFirst cluster = false ->
            2 * Second * (Z.of_nat (queries w' - queries w) - 1) < d - now w)).
Proof.
  intros Hd. induction fuel as [|fuel IH]; intros p w p' w' H;
    [discriminate H|].
  apply waitUntil_cases in H.
  destruct H as [(_ & _ & ->) | (E0 & _ & p1 & w1 & _ & Hn & Hq & _ & H)];
    [now left|].
  right. unfold expired in E0. rewrite Hd in E0. apply Z.leb_gt in E0.
  pose proof (N2Z.is_nonneg (fst (ServerVersion cluster (queries w)))) as Ht.
  destruct H as [(_ & ->) | [(d' & _ & _ & _ & _ & ->)
                            | [(d' & Hd' & Hd2 & Htf & _ & _ & Hq2 & _)
                              | (_ & H)]]].
  - rewrite Hq. split; [lia|].
    replace (S (queries w) - queries w)%nat with 1%nat by lia.
    unfold Second. lia.
  - cbn [queries ahead]. rewrite Hq. split; [lia|].
    replace (S (queries w) - queries w)%nat with 1%nat by lia.
    unfold Second. lia.
  - rewrite Hd in Hd'. injection Hd' as <-.
    rewrite Hq2, Hq. split; [lia|].
    replace (S (S (queries w)) - queries w)%nat with 2%nat by lia.
    split; [unfold Second in *; lia|].
    intros H. rewrite Htf in H. discriminate H.
  - apply IH in H. cbn [queries now ahead] in H. rewrite Hq in H.
    unfold Second in *. destruct H as [H | (H1 & H2 & H3)].
    + rewrite H. split; [lia|].
      replace (S (queries w) - queries w)%nat with 1%nat by lia. lia.
    + split; [lia|]. split; [lia|]. intros Htf. specialize (H3 Htf). lia.
Qed.

(** X9: the wait for the API makes at most 901 version queries: its
    queries start at least two seconds apart and none starts after the
    deadline of 30 minutes.  There are at most 900 of them unless the
    scheduler serves the timer of [wait.Until] at the very instant of
    the deadline, which lets the closure run once more. *)
Theorem waitForAPI_query_count (fuel : nat) (ctx : Context) (w : World) :
  (901 <= fuel)%nat ->
  exists p' w',
    waitForAPI cluster fuel ctx w = Some (p', w')
    /\ (queries w' - queries w <= 901)%nat
    /\ (timerFirst cluster = false -> (queries w' - queries w <= 900)%nat).
Proof.
  intros Hfuel.
  destruct (waitForAPI_returns fuel ctx w Hfuel) as (p' & w' & d & Hr & Hd & Hle).
  exists p', w'. split; [exact Hr|].
  rewrite waitForAPI_unfold in Hr.
  apply (waitUntil_query_bound _ _ _ Hd) in Hr.
  cbn [queries now logged] in Hr.
  unfold apiTimeout, Minute, Second in *.
  destruct Hr as [Hr | (_ & Hr1 & Hr2)].
  - split; [lia | intros _; lia].
  - split; [lia|]. intros Htf. specialize (Hr2 Htf). lia.
Qed.

(** The poll does not outlast its deadline by more than a query. *)
Lemma waitUntil_time_bound (fuel : nat) (ctx : Context) (d L : Z) :
  (forall k, Z.of_N (fst (ServerVersion cluster k)) <= L) ->
  deadline ctx = Some d ->
  forall (p : Poll) (w : World) (p' : Poll) (w' : World),
    waitUntil cluster fuel (pollAPI cluster) (2 * Second) ctx p w = Some (p', w') ->
    now w' <= Z.max (now w) (d + L).
Proof.
  intros HL Hd. induction fuel as [|fuel IH]; intros p w p' w' H;
    [discriminate H|].
  apply waitUntil_cases in H.
  destruct H as [(_ & _ & ->) | (E0 & _ & p1 & w1 & _ & Hn & _ & _ & H)];
    [lia|].
  unfold expired in E0. rewrite Hd in E0. apply Z.leb_gt in E0.
  pose proof (N2Z.is_nonneg (fst (ServerVersion cluster (queries w)))) as Ht.
  pose proof (HL (queries w)) as Hk.
  destruct H as [(_ & ->) | [(d' & Hd' & _ & _ & _ & ->)
                            | [(d' & Hd' & _ & _ & _ & Hn2 & Hq2 & _)
                              | (E2 & H)]]].
  - lia.
  - rewrite Hd in Hd'. injection Hd' as <-. cbn [now ahead]. lia.
  - rewrite Hd in Hd'. injection Hd' as <-.
    pose proof (HL (queries w1)) as Hk2. lia.
  - apply IH in H. cbn [now ahead] in H.
    unfold expired in E2. rewrite Hd in E2. apply Z.leb_gt in E2. lia.
Qed.



(** X17: when no version query takes longer than [L], the wait for the
    API is over at the latest 30 minutes and [L] after it began. *)
Theorem waitForAPI_ends_in_time (fuel : nat) (ctx : Context) (w : World)
    (L : Z) :
  (901 <= fuel)%nat ->
  (forall k, Z.of_N (fst (ServerVersion cluster k)) <= L) ->
  exists p' w',
    waitForAPI cluster fuel ctx w = Some (p', w')
    /\ now w' <= now w + apiTimeout + L.
Proof.
  intros Hfuel HL.
  destruct (waitForAPI_returns fuel ctx w Hfuel) as (p' & w' & d & Hr & Hd & Hle).
  exists p', w'. split; [exact Hr|].
  rewrite waitForAPI_unfold in Hr.
  apply (waitUntil_time_bound _ _ _ L HL Hd) in Hr.
  cbn [now logged] in Hr.
  pose proof (N2Z.is_nonneg (fst (ServerVersion cluster 0))) as Ht.
  pose proof (HL 0%nat) as Hk.
  unfold apiTimeout, Minute, Second in *. lia.
Qed.

(** X10: under [context.Background()], when the first version query
    fails, the "Still waiting" line follows it at once if and only if
    the signature of the error is not empty; what comes next in the
    trace is the next query. *)
Theorem waitForAPI_first_failure (fuel : nat) (w : World) (e : error) :
  (901 <= fuel)%nat ->
  snd (ServerVersion cluster (queries w)) = inr e ->
  exists p' w' rest,
    waitForAPI cluster fuel Background w = Some (p', w')
    /\ effects w'
       = effects w
         ++ Log InfoLevel "Waiting 30m0s for the Kubernetes API..."
            :: failedQuery e (negb (String.eqb (errorSuffix e) ""))
            ++ rest
    /\ beginsWithQuery rest.
Proof.
  intros Hfuel He.
  destruct (waitForAPI_returns fuel Background w Hfuel)
    as (p' & w' & d & Hr & Hd & _).
  assert (Ht : tracks pollStart "" 0)
    by (unfold tracks, pollStart, logDownsample; cbn; repeat split; lia).
  pose proof Hr as Hr'. rewrite waitForAPI_unfold in Hr'.
  destruct (waitUntil_log cluster fuel _ _ _ _ _ _ "" 0%nat Ht Hr')
    as (errs & up & Ha & Heff).
  (* the first turn makes a query *)
  assert (Hq : (queries w < queries w')%nat).
  { destruct fuel as [|fuel]; [lia|].
    apply waitUntil_cases in Hr'.
    destruct Hr' as [(E & _) | (_ & _ & p1 & w1 & _ & _ & Hq & _ & H)].
    - exfalso. cbn in E. apply Z.leb_le in E.
      unfold apiTimeout, Minute, Second in E. lia.
    - cbn [queries logged] in Hq.
      destruct H as [(_ & ->) | [(d' & _ & _ & _ & _ & ->)
                                | [(d' & _ & _ & _ & _ & _ & Hq2 & _)
                                  | (_ & H)]]].
      + lia.
      + cbn [queries ahead]. lia.
      + lia.
      + apply waitUntil_queries in H. cbn [queries ahead] in H. lia. }
  cbn [queries logged] in Ha.
  replace (queries w' - queries w)%nat
    with (S (queries w' - S (queries w)))%nat in Ha by lia.
  rewrite answers_cons, He in Ha.
  destruct errs as [|e0 errs].
  { destruct up; discriminate Ha. }
  cbn [map app] in Ha. injection Ha as <- _.
  exists p', w'.
  cbn [map stillWaitingLogged pollEffects] in Heff.
  replace (negb (String.eqb (errorSuffix e) "") || Nat.eqb 1 15)
    with (negb (String.eqb (errorSuffix e) "")) in Heff
    by (now rewrite orb_false_r).
  destruct (negb (String.eqb (errorSuffix e) "")) eqn:Es;
    cbn [pollEffects] in Heff.
  - eexists. split; [exact Hr|]. split.
    + rewrite Heff. unfold effects, logged. cbn [trace].
      rewrite map_app, <- !app_assoc. cbn [map app]. reflexivity.
    + apply pollEffects_begins. destruct up; [reflexivity | exact I].
  - eexists. split; [exact Hr|]. split.
    + rewrite Heff. unfold effects, logged. cbn [trace].
      rewrite map_app, <- !app_assoc. cbn [map app]. reflexivity.
    + apply pollEffects_begins. destruct up; [reflexivity | exact I].
Qed.

Lemma pollTime_nonneg (first count : nat) :
  0 <= pollTime cluster first count.
Proof.
  revert first. induction count as [|count IH]; intros first;
    cbn [pollTime]; [lia|].
  pose proof (N2Z.is_nonneg (fst (ServerVersion cluster first))).
  specialize (IH (S first)). lia.
Qed.

(** As long as the queries fail and the deadline is ahead the poll goes
    on: it makes each of these queries, and a failure leaves its line
    when the rule says so.  What follows them in the trace, if
    anything, begins with the next query. *)
Lemma waitUntil_failures (fuel : nat) (ctx : Context) (d : Z) :
  deadline ctx = Some d ->
  forall (errs : list error) (p : Poll) (w : World) (p' : Poll) (w' : World)
         (previous : string) (silent : nat),
    tracks p previous silent ->
    cancelled p = false ->
    answers cluster (queries w) (length errs) = map inr errs ->
    (errs <> [] ->
     now w + pollTime cluster (queries w) (length errs - 1)
     + 2 * Second * (Z.of_nat (length errs) - 1) < d) ->
    waitUntil cluster fuel (pollAPI cluster) (2 * Second) ctx p w
    = Some (p', w') ->
    exists rest,
      effects w'
      = effects w
        ++ pollEffects errs
             (stillWaitingLogged previous silent (map errorSuffix errs))
        ++ rest
      /\ beginsWithQuery rest.
Proof.
  intros Hd. induction fuel as [|fuel IH];
    intros errs p w p' w' previous silent Ht Hcp Ha Htime H; [discriminate H|].
  destruct errs as [|e errs].
  { destruct (waitUntil_log cluster (S fuel) _ _ _ _ _ _ previous silent Ht H)
      as (errs0 & up & _ & He).
    eexists. split; [exact He|].
    apply pollEffects_begins. destruct up; [reflexivity | exact I]. }
  specialize (Htime ltac:(discriminate)).
  cbn [List.length] in Htime. rewrite Nat.sub_succ, Nat.sub_0_r in Htime.
  pose proof (pollTime_nonneg (queries w) (length errs)) as Hpt.
  assert (E0 : now w < d) by (unfold Second in *; lia).
  cbn [List.length map] in Ha. rewrite answers_cons in Ha.
  injection Ha as Hans0 Ha.
  rewrite waitUntil_turn in H. rewrite Hcp in H. unfold expired in H.
  rewrite Hd in H.
  replace (d <=? now w) with false in H by (symmetry; apply Z.leb_gt; exact E0).
  cbn [orb] in H.
  destruct (pollAPI_call cluster p w) as (p1 & w1 & Hc & Hq & _ & Hans).
  destruct (pollAPI_step p w) as (p1' & w1' & Hc' & Hn & _ & _).
  rewrite Hc in Hc'. injection Hc' as <- <-.
  rewrite Hc in H. rewrite Hans0 in Hans. destruct Hans as (Hp1 & Heff).
  destruct (onQueryError_tracks p previous silent e Ht) as (Hl & Hcan & Ht1).
  rewrite <- Hp1 in Ht1, Hcan. rewrite Hl in Heff. rewrite Hcp in Hcan.
  rewrite Hcan in H. cbn [orb] in H.
  cbn [map stillWaitingLogged pollEffects].
  set (logged := negb (String.eqb (errorSuffix e) previous)
                 || Nat.eqb (S silent) 15) in *.
  assert (Hone : forall tail,
             effects w1 ++ tail
             = effects w
               ++ pollEffects (e :: errs)
                    (if logged
                     then true :: stillWaitingLogged (errorSuffix e) 0
                                    (map errorSuffix errs)
                     else false :: stillWaitingLogged previous (S silent)
                                     (map errorSuffix errs))
               ++ tail
             \/ errs <> []).
  { intros tail. destruct errs as [|e2 errs2]; [left | right; discriminate].
    rewrite Heff. destruct logged; cbn; rewrite <- !app_assoc; reflexivity. }
  assert (Hmore :
            errs <> [] ->
            now w1 + 2 * Second
            + pollTime cluster (S (queries w)) (length errs - 1)
            + 2 * Second * (Z.of_nat (length errs) - 1) < d).
  { intros Hne. destruct errs as [|e2 errs2]; [now contradiction Hne|].
    cbn [List.length pollTime] in Htime |- *.
    rewrite Nat.sub_succ, Nat.sub_0_r. rewrite Hn. unfold Second in *. lia. }
  assert (Hnil : d <= now w1 + 2 * Second -> errs = []).
  { intros Hle. destruct errs as [|e2 errs2]; [reflexivity|]. exfalso.
    specialize (Hmore ltac:(discriminate)).
    cbn [List.length] in Hmore. rewrite Nat.sub_succ, Nat.sub_0_r in Hmore.
    pose proof (pollTime_nonneg (S (queries w)) (length errs2)).
    unfold Second in *. lia. }
  destruct (d <=? now w1) eqn:E1.
  { apply Z.leb_le in E1. injection H as <- <-.
    assert (errs = []) by (apply Hnil; unfold Second; lia). subst errs.
    exists []. split; [|exact I].
    destruct (Hone []) as [Ho | Ho]; [|now contradiction Ho].
    rewrite app_nil_r in Ho. exact Ho. }
  destruct (d <=? now w1 + 2 * Second) eqn:E2.
  { apply Z.leb_le in E2. specialize (Hnil E2). subst errs.
    destruct ((d =? now w1 + 2 * Second) && timerFirst cluster).
    - destruct (pollAPI_log cluster _ _ _ _ _ _ Ht1 H)
        as (errs2 & up & _ & _ & He).
      eexists. split.
      + rewrite He. change (effects (ahead w1 (d - now w1))) with (effects w1).
        destruct (Hone (pollEffects errs2
                          (stillWaitingLogged
                             (if logged then errorSuffix e else previous)
                             (if logged then 0%nat else S silent)
                             (map errorSuffix errs2))
                        ++ successEffects up)) as [Ho | Ho];
          [exact Ho | now contradiction Ho].
      + apply pollEffects_begins. destruct up; [reflexivity | exact I].
    - injection H as <- <-. exists []. split; [|exact I].
      change (effects (ahead w1 (d - now w1))) with (effects w1).
      destruct (Hone []) as [Ho | Ho]; [|now contradiction Ho].
      rewrite app_nil_r in Ho. exact Ho. }
  destruct (IH errs p1 (ahead w1 (2 * Second)) p' w'
              (if logged then errorSuffix e else previous)
              (if logged then 0%nat else S silent) Ht1 Hcan)
    as (rest & He & Hb).
  - cbn [queries ahead]. rewrite Hq. exact Ha.
  - intros Hne. cbn [queries now ahead]. rewrite Hq. exact (Hmore Hne).
  - exact H.
  - exists rest. split; [|exact Hb].
    rewrite He. change (effects (ahead w1 (2 * Second))) with (effects w1).
    rewrite Heff, <- !app_assoc. destruct logged; reflexivity.
Qed.

(** X21: under [context.Background()], as long as the version queries
    fail and the deadline is ahead, the wait for the API makes each of
    them, and the "Still waiting" line follows a failure exactly when
    the rule of the claim says so, provided that the signature of the
    first error is not empty: no line was logged before, or the
    signature differs from the one logged last, or it is the 15th
    failure since the last line.  The signature of an error is the text
    after its last colon (all of it when it has no colon).  What comes
    after these failures in the trace, if anything, begins with the
    next query. *)
Theorem waitForAPI_failures_logged (fuel : nat) (w : World) (e : error)
    (errs : list error) :
  (901 <= fuel)%nat ->
  answers cluster (queries w) (S (length errs)) = map inr (e :: errs) ->
  pollTime cluster (queries w) (length errs)
  + 2 * Second * Z.of_nat (length errs) < apiTimeout ->
  errorSuffix e <> ""%string ->
  exists p' w' rest,
    waitForAPI cluster fuel Background w = Some (p', w')
    /\ effects w'
       = effects w
         ++ Log InfoLevel "Waiting 30m0s for the Kubernetes API..."
            :: pollEffects (e :: errs)
                 (claimedLogged None 0 (map errorSuffix (e :: errs)))
            ++ rest
    /\ beginsWithQuery rest
    /\ (forall e' : error,
          strings_terms.free_of strings.colon (errorSuffix e')
          /\ (Error e' = errorSuffix e'
              \/ exists before : string,
                   Error e' = (before ++ ":" ++ errorSuffix e')%string)).
Proof.
  intros Hfuel Ha Htime Hs.
  destruct (waitForAPI_returns fuel Background w Hfuel)
    as (p' & w' & d & Hr & _ & _).
  assert (Ht : tracks pollStart "" 0)
    by (unfold tracks, pollStart, logDownsample; cbn; repeat split; lia).
  pose proof Hr as Hr'. rewrite waitForAPI_unfold in Hr'.
  destruct (waitUntil_failures fuel (WithTimeout Background apiTimeout (now w))
              (now w + apiTimeout) eq_refl (e :: errs) pollStart
              (logged w InfoLevel "Waiting 30m0s for the Kubernetes API...")
              p' w' "" 0%nat Ht eq_refl)
    as (rest & He & Hb).
  - exact Ha.
  - intros _. cbn [List.length now queries logged].
    rewrite Nat.sub_succ, Nat.sub_0_r. lia.
  - exact Hr'.
  - exists p', w', rest. split; [exact Hr|]. split; [|split; [exact Hb|]].
    + cbn [map]. rewrite (claimedLogged_start _ _ Hs). cbn [map] in He.
      rewrite He. unfold effects, logged. cbn [trace].
      rewrite map_app, <- app_assoc. reflexivity.
    + intros e'. unfold errorSuffix. apply strings_facts.Split_last.
Qed.

(** X11: when the opener returns, it has made at least one attempt, all
    with the resource version it was given; every attempt but the last
    failed, and what it returns is the answer of the last attempt; it
    slept 2 seconds after each failed attempt but the last, so that the
    time it took is the time of the attempts and 2 seconds for each
    retry; it made no version query. *)
Theorem openWatch_attempts (fuel : nat) (ctx : Context) (rv : string) :
  forall (w : World) (res : option Watcher * option error) (w' : World),
    openWatch cluster fuel ctx rv w = Some (res, w') ->
    (watches w < watches w')%nat
    /\ snd (Watch cluster (pred (watches w')) rv) = res
    /\ (forall k, (watches w <= k < pred (watches w'))%nat ->
                  snd (snd (Watch cluster k rv)) <> None)
    /\ now w'
       = now w + watchTime cluster rv (watches w) (watches w' - watches w)
         + 2 * Second * (Z.of_nat (watches w' - watches w) - 1)
    /\ queries w' = queries w.
Proof.
  induction fuel as [|fuel IH]; intros w res w' H; [discriminate H|].
  destruct (Watch cluster (watches w) rv) as [took [watcher [e|]]] eqn:Ew.
  - rewrite (openWatch_failed_attempt cluster fuel ctx rv w took watcher e Ew)
      in H.
    destruct (expired ctx (now (attempted w rv took))).
    + injection H as <- <-. cbn [watches now queries attempted pred].
      split; [lia|]. split; [now rewrite Ew|]. split; [intros k Hk; lia|].
      replace (S (watches w) - watches w)%nat with 1%nat by lia.
      cbn [watchTime]. rewrite Ew. cbn [fst]. split; [lia | reflexivity].
    + apply IH in H.
      cbn [watches now queries attempted backedOff] in H.
      destruct H as (Hw & Hl & Hk & Hn & Hq).
      split; [lia|]. split; [exact Hl|]. split.
      * intros k Hr. destruct (Nat.eq_dec k (watches w)) as [-> | Hne].
        -- rewrite Ew. discriminate.
        -- apply Hk. lia.
      * split; [|exact Hq].
        replace (watches w' - watches w)%nat
          with (S (watches w' - S (watches w)))%nat by lia.
        cbn [watchTime]. rewrite Ew. cbn [fst]. rewrite Hn.
        unfold Second. lia.
  - rewrite (openWatch_opened cluster fuel ctx rv w took watcher Ew) in H.
    injection H as <- <-. cbn [watches now queries attempted pred].
    split; [lia|]. split; [now rewrite Ew|]. split; [intros k Hk; lia|].
    replace (S (watches w) - watches w)%nat with 1%nat by lia.
    cbn [watchTime]. rewrite Ew. cbn [fst]. split; [lia | reflexivity].
Qed.

Variable Until :
  Context -> string -> @WatcherFunc Watcher -> ConditionFunc ->
  R (option WatchEvent * option error).

(** [destroyBootstrap] returns nil only after [Until] and [Destroy]
    did. *)
Lemma destroyBootstrap_nil (fuel : nat) (ctx : Context) (w w' : World) :
  destroyBootstrap cluster Until fuel ctx w = Some (None, w') ->
  fileHook cluster = None
  /\ kubeconfig cluster = None
  /\ newClient cluster = None
  /\ Destroy cluster = None
  /\ exists p w1 event w2,
       waitForAPI cluster fuel ctx w = Some (p, w1)
       /\ (let eventContext := WithTimeout ctx eventTimeout (now w1) in
           Until eventContext "" (openWatch cluster fuel eventContext)
                 bootstrapComplete (enteringUntil w1 eventContext)
           = Some ((event, None), w2))
       /\ effects w'
          = effects w2
            ++ [Log InfoLevel "Destroying the bootstrap resources...";
                CallDestroy].
Proof.
  unfold destroyBootstrap.
  destruct (fileHook cluster); [discriminate|].
  destruct (kubeconfig cluster); [discriminate|].
  destruct (newClient cluster); [discriminate|].
  unfold bind at 1. destruct (waitForAPI cluster fuel ctx w) as [[p1 w1]|];
    [|discriminate].
  unfold bind at 1. unfold waitForEvent.
  unfold bind at 1 2 3 4. unfold log, emit, clock.
  cbn [now trace queries watches].
  fold (enteringUntil w1 (WithTimeout ctx eventTimeout (now w1))).
  destruct (Until (WithTimeout ctx eventTimeout (now w1)) ""
              (openWatch cluster fuel (WithTimeout ctx eventTimeout (now w1)))
              bootstrapComplete
              (enteringUntil w1 (WithTimeout ctx eventTimeout (now w1))))
    as [[[event [err|]] w2]|] eqn:Eu; cbn [snd]; [discriminate | | discriminate].
  unfold bind, ret. cbn [now trace queries watches].
  intros H. injection H as Hd <-. repeat split; try reflexivity; [exact Hd|].
  exists p1, w1, event, w2. split; [reflexivity|]. split; [exact Eu|].
  unfold effects. cbn [trace]. rewrite !map_app, <- app_assoc. reflexivity.
Qed.

Variable Abs : string -> string + error.
Variable Join : list string -> string.
Variable ReadFile : string -> string + error.

(** X16: the [PostRunE] of the cluster target returns nil only when the
    log hook, the kubeconfig and the client were set up, the wait for
    the API returned, [Until], entered at that time under a deadline 30
    minutes later, returned without an error, [Destroy] returned nil,
    the directory has an absolute path and the password file under it
    can be read; what its trace has after the return of [Until] is
    then, in order: the announcement and the call of [Destroy], the
    password, and "Install complete!" with the path of the
    kubeconfig. *)
Theorem clusterPostRun_nil (fuel : nat) (directory : string) (w w' : World) :
  clusterPostRun cluster Until Abs Join ReadFile fuel directory w
  = Some (None, w') ->
  fileHook cluster = None
  /\ kubeconfig cluster = None
  /\ newClient cluster = None
  /\ Destroy cluster = None
  /\ exists p w1 event w2 absDir pw,
       waitForAPI cluster fuel Background w = Some (p, w1)
       /\ (let eventContext := {| deadline := Some (now w1 + eventTimeout) |} in
           Until eventContext "" (openWatch cluster fuel eventContext)
                 bootstrapComplete (enteringUntil w1 eventContext)
           = Some ((event, None), w2))
       /\ Abs directory = inl absDir
       /\ ReadFile (Join [absDir; "auth"; "kubeadmin-password"]) = inl pw
       /\ effects w'
          = effects w2
            ++ [Log InfoLevel "Destroying the bootstrap resources...";
                CallDestroy;
                Log InfoLevel ("kubeadmin user password: " ++ pw);
                Log InfoLevel
                  ("Install complete! The kubeconfig is located here: "
                   ++ Join [absDir; "auth"; "kubeconfig"])].
Proof.
  unfold clusterPostRun. unfold bind at 1.
  destruct (destroyBootstrap cluster Until fuel Background w)
    as [[[e|] w1]|] eqn:Ed; [discriminate | | discriminate].
  destruct (destroyBootstrap_nil fuel Background w w1 Ed)
    as (Hh & Hk & Hc & Hd & p & w0 & event & w2 & Hapi & Hu & Ht).
  unfold logComplete.
  destruct (Abs directory) as [absDir | err] eqn:Ea; [|discriminate].
  destruct (ReadFile (Join [absDir; "auth"; "kubeadmin-password"]))
    as [pw | err] eqn:Er; [|discriminate].
  unfold bind, log, emit, ret. cbn [now trace queries watches].
  intros H. injection H as <-.
  split; [exact Hh|]. split; [exact Hk|]. split; [exact Hc|].
  split; [exact Hd|]. exists p, w0, event, w2, absDir, pw.
  split; [exact Hapi|]. split; [exact Hu|].
  split; [reflexivity|]. split; [exact Er|].
  unfold effects in *. cbn [trace]. rewrite !map_app, Ht, <- !app_assoc.
  reflexivity.
Qed.

End Cluster.

End destroyBootstrap_more.

Module destroyBootstrap_more_examples.

Import create create_more create_terms more_terms.
Import destroyBootstrap_inputs more_inputs destroyBootstrap_more.

Local Open Scope Z_scope.

(** X7 at the cluster that never comes up. *)
Lemma waitForAPI_countdown_in_range_witness :
  exists p' w',
    waitForAPI (downCluster 1000000000) 901 Background world0 = Some (p', w')
    /\ 1 <= silenceRemaining p' <= 15.
Proof.
  exact (waitForAPI_countdown_in_range
           (downCluster 1000000000) 901 Background world0 (le_n 901)).
Defined.

(** X8 at the cluster that never comes up. *)
Lemma waitForAPI_never_silent_for_15_witness :
  exists p' w' errs logged up,
    waitForAPI (downCluster 1000000000) 901 Background world0 = Some (p', w')
    /\ effects w'
       = effects world0
         ++ Log InfoLevel "Waiting 30m0s for the Kubernetes API..."
            :: pollEffects errs logged ++ successEffects up
    /\ length logged = length errs
    /\ neverSilentFor 15 0 logged.
Proof.
  exact (waitForAPI_never_silent_for_15
           (downCluster 1000000000) 901 Background world0 (le_n 901)).
Defined.

(** X9 at the cluster that never comes up. *)
Lemma waitForAPI_query_count_witness :
  exists p' w',
    waitForAPI (downCluster 1000000000) 901 Background world0 = Some (p', w')
    /\ (queries w' - queries world0 <= 901)%nat
    /\ (timerFirst (downCluster 1000000000) = false ->
        (queries w' - queries world0 <= 900)%nat).
Proof.
  exact (waitForAPI_query_count
           (downCluster 1000000000) 901 Background world0 (le_n 901)).
Defined.

(** The two ends of that bound, at a cluster that refuses every query
    at once: the 900 queries of the poll start at 0, 2, ..., 1798
    seconds, and the timer that follows the last falls on the deadline;
    when the scheduler serves it first there is one more query, at 1800
    seconds. *)
Example waitForAPI_query_count_at_a_tie :
  option_map (fun r => (queries (snd r), now (snd r) / Second))
    (waitForAPI (refusingAtOnce false) 901 Background world0)
  = Some (900%nat, 1800)
  /\ option_map (fun r => (queries (snd r), now (snd r) / Second))
       (waitForAPI (refusingAtOnce true) 901 Background world0)
     = Some (901%nat, 1800).
Proof. split; vm_compute; reflexivity. Qed.

(** The cluster that never comes up, whose queries take 58 seconds: the
    30th query ends at 1798 seconds; served first at 1800, the timer
    lets a 31st query run, which ends at 1858 seconds. *)
Example waitForAPI_one_more_query_at_a_tie :
  option_map (fun r => (queries (snd r), now (snd r) / Second))
    (waitForAPI (downCluster 298000000000) 901 Background world0)
  = Some (30%nat, 1800)
  /\ option_map (fun r => (queries (snd r), now (snd r) / Second))
       (waitForAPI downClusterTimerFirst 901 Background world0)
     = Some (31%nat, 1858).
Proof. split; vm_compute; reflexivity. Qed.

(** X17 at the cluster that never comes up, whose queries take 58
    seconds each. *)
Lemma waitForAPI_ends_in_time_witness :
  exists p' w',
    waitForAPI (downCluster 1000000000) 901 Background world0 = Some (p', w')
    /\ now w' <= now world0 + apiTimeout + 58 * Second.
Proof.
  exact (waitForAPI_ends_in_time
           (downCluster 1000000000) 901 Background world0 (58 * Second)
           (le_n 901) (fun _ => Z.le_refl _)).
Defined.

(** X10 at the cluster that never comes up. *)
Lemma waitForAPI_first_failure_witness :
  exists p' w' rest,
    waitForAPI (downCluster 1000000000) 901 Background world0 = Some (p', w')
    /\ effects w'
       = effects world0
         ++ Log InfoLevel "Waiting 30m0s for the Kubernetes API..."
            :: failedQuery refused (negb (String.eqb (errorSuffix refused) ""))
            ++ rest
    /\ beginsWithQuery rest.
Proof.
  exact (waitForAPI_first_failure
           (downCluster 1000000000) 901 world0 refused (le_n 901) eq_refl).
Defined.

(** X21 at the cluster that comes up: 17 refusals and 3 queries without
    an answer, a second each, before the query that succeeds. *)
Lemma waitForAPI_failures_logged_witness :
  exists p' w' rest,
    waitForAPI comingUp 901 Background world0 = Some (p', w')
    /\ effects w'
       = effects world0
         ++ Log InfoLevel "Waiting 30m0s for the Kubernetes API..."
            :: pollEffects (refused :: repeat refused 16 ++ repeat noAnswer 3)
                 (claimedLogged None 0
                    (map errorSuffix
                       (refused :: repeat refused 16 ++ repeat noAnswer 3)))
            ++ rest
    /\ beginsWithQuery rest
    /\ (forall e' : error,
          strings_terms.free_of strings.colon (errorSuffix e')
          /\ (Error e' = errorSuffix e'
              \/ exists before : string,
                   Error e' = (before ++ ":" ++ errorSuffix e')%string)).
Proof.
  apply (waitForAPI_failures_logged comingUp 901 world0 refused
           (repeat refused 16 ++ repeat noAnswer 3)).
  - apply le_n.
  - reflexivity.
  - vm_compute. reflexivity.
  - vm_compute. discriminate.
Defined.

(** The lines of that run, by the rule: the first refusal, the 16th,
    and the first query without an answer. *)
Example claimedLogged_cluster_comes_up :
  claimedLogged None 0
    (map errorSuffix (refused :: repeat refused 16 ++ repeat noAnswer 3))
  = [true] ++ repeat false 14 ++ [true; false] ++ [true; false; false].
Proof. vm_compute. reflexivity. Qed.

(** X11 at the opener that gives up after three attempts. *)
Lemma openWatch_attempts_witness :
  exists res w',
    openWatch (downCluster 1000000000) 10 fiveSeconds "" world0 = Some (res, w')
    /\ (watches world0 < watches w')%nat
    /\ snd (Watch (downCluster 1000000000) (pred (watches w')) "") = res
    /\ (forall k, (watches world0 <= k < pred (watches w'))%nat ->
                  snd (snd (Watch (downCluster 1000000000) k "")) <> None)
    /\ now w'
       = now world0
         + watchTime (downCluster 1000000000) "" (watches world0)
                     (watches w' - watches world0)
         + 2 * Second * (Z.of_nat (watches w' - watches world0) - 1)
    /\ queries w' = queries world0.
Proof.
  eexists. eexists. split; [vm_compute; reflexivity|].
  apply (openWatch_attempts (downCluster 1000000000) 10 fiveSeconds "").
  vm_compute. reflexivity.
Defined.

(** X16 at the cluster that comes up. *)
Lemma clusterPostRun_nil_witness :
  exists w',
    clusterPostRun comingUp (specUntil 10) absHome joinSlash readPassword
                   901 "cluster" world0
    = Some (None, w')
    /\ fileHook comingUp = None
    /\ kubeconfig comingUp = None
    /\ newClient comingUp = None
    /\ Destroy comingUp = None
    /\ exists p w1 event w2 absDir pw,
         waitForAPI comingUp 901 Background world0 = Some (p, w1)
         /\ (let eventContext :=
               {| deadline := Some (now w1 + eventTimeout) |} in
             specUntil 10 eventContext "" (openWatch comingUp 901 eventContext)
                       bootstrapComplete (enteringUntil w1 eventContext)
             = Some ((event, None), w2))
         /\ absHome "cluster" = inl absDir
         /\ readPassword (joinSlash [absDir; "auth"; "kubeadmin-password"])
            = inl pw
         /\ effects w'
            = effects w2
              ++ [Log InfoLevel "Destroying the bootstrap resources...";
                  CallDestroy;
                  Log InfoLevel ("kubeadmin user password: " ++ pw);
                  Log InfoLevel
                    ("Install complete! The kubeconfig is located here: "
                     ++ joinSlash [absDir; "auth"; "kubeconfig"])].
Proof.
  eexists. split; [vm_compute; reflexivity|].
  apply (clusterPostRun_nil comingUp (specUntil 10) absHome joinSlash
           readPassword 901 "cluster" world0).
  vm_compute. reflexivity.
Defined.

(** The last two lines of that run. *)
Example clusterPostRun_last_lines :
  option_map (fun r => (fst r, skipn 9 (inSeconds (filter isLog (trace (snd r))))))
    (clusterPostRun comingUp (specUntil 10) absHome joinSlash readPassword
                    901 "cluster" world0)
  = Some
      (None,
       [ (61, Log InfoLevel "kubeadmin user password: 5char-5char-5char-5char");
         (61, Log InfoLevel
                "Install complete! The kubeconfig is located here: /home/core/cluster/auth/kubeconfig") ]).
Proof. vm_compute. reflexivity. Qed.

(** A wait for bootstrap-complete that fails: its error comes back
    wrapped, [Destroy] is not called and nothing is said of a complete
    install. *)
Example clusterPostRun_wait_fails :
  option_map (fun r => (fst r, filter isInfo (effects (snd r))))
    (clusterPostRun (downCluster 298000000000) (specUntil 10) absHome
                    joinSlash readPassword 901 "cluster" world0)
  = Some (Some (Wrap ErrWaitTimeout "waiting for bootstrap-complete"),
          [Log InfoLevel "Waiting 30m0s for the Kubernetes API...";
           Log InfoLevel "Waiting 30m0s for the bootstrap-complete event..."]).
Proof. vm_compute. reflexivity. Qed.

(** A password file that is not there: the error of the read comes
    back as it is, after the bootstrap resources are gone. *)
Example clusterPostRun_without_password :
  option_map fst
    (clusterPostRun comingUp (specUntil 10) absHome joinSlash readPassword
                    901 "elsewhere" world0)
  = Some (Some (PathError "open" "/home/core/elsewhere/auth/kubeadmin-password"
                          ErrNotExist)).
Proof. vm_compute. reflexivity. Qed.

End destroyBootstrap_more_examples.

(* ================================================================== *)
(** * More properties of the install-config asset *)
(* ================================================================== *)

Module installconfig_more.

Import installconfig installconfig_terms installconfig_facts.

Section Facts.

Context {AWSPlatform OpenStackPlatform LibvirtPlatform : Type}.

Local Abbreviation Config :=
  (@Config AWSPlatform OpenStackPlatform LibvirtPlatform).
Local Abbreviation InstallConfig :=
  (@InstallConfig AWSPlatform OpenStackPlatform LibvirtPlatform).
Local Abbreviation Parents :=
  (@Parents AWSPlatform OpenStackPlatform LibvirtPlatform).

Variable Marshal : Config -> list byte + error.
Variable Unmarshal : list byte -> Config + error.

(** The config that [Generate] hands to [yaml.Marshal]. *)
Lemma Generate_config (a : InstallConfig) (parents : Parents) :
  ~ unknownPlatform parents ->
  exists c' n,
    platformSwitch (baseConfig parents) (Platform parents)
    = Returned (c', n, n)
    /\ Generate Marshal a parents
       = match Marshal (set_Machines c' (machinePools n n)) with
         | inr err =>
             ({| ic_Config := Some (set_Machines c' (machinePools n n));
                 ic_File := ic_File a |},
              Returned (Some (Wrap err "failed to Marshal InstallConfig")))
         | inl data =>
             ({| ic_Config := Some (set_Machines c' (machinePools n n));
                 ic_File := Some {| Filename := installConfigFilename;
                                    Data := data |} |},
              Returned None)
         end.
Proof.
  intros Hk.
  assert (Hp : AWS (Platform parents) <> None
               \/ OpenStack (Platform parents) <> None
               \/ Libvirt (Platform parents) <> None).
  { unfold unknownPlatform in Hk.
    destruct (AWS (Platform parents)); [left; discriminate|].
    destruct (OpenStack (Platform parents)); [right; left; discriminate|].
    destruct (Libvirt (Platform parents)); [right; right; discriminate|].
    exfalso. now apply Hk. }
  destruct (platformSwitch_known (baseConfig parents) _ Hp)
    as (c' & n & Hs & _ & _).
  exists c', n. split; [exact Hs|]. unfold Generate. rewrite Hs.
  destruct (Marshal _); reflexivity.
Qed.

(** X13: with a known platform the config that [Generate] leaves names
    exactly one platform, the first that is set among AWS, OpenStack
    and Libvirt, also when the platform asset has more than one set;
    it carries the name, the id, the base domain, the administrator and
    the pull secret of the cluster as its dependencies give them. *)
Theorem Generate_names_one_platform (a : InstallConfig) (parents : Parents) :
  ~ unknownPlatform parents ->
  exists c,
    ic_Config (fst (Generate Marshal a parents)) = Some c
    /\ match AWS (Platform parents), OpenStack (Platform parents) with
       | Some aws, _ =>
           cfg_AWS c = Some aws /\ cfg_OpenStack c = None /\ cfg_Libvirt c = None
       | None, Some openstack =>
           cfg_AWS c = None /\ cfg_OpenStack c = Some openstack
           /\ cfg_Libvirt c = None
       | None, None =>
           cfg_AWS c = None /\ cfg_OpenStack c = None
           /\ cfg_Libvirt c = Libvirt (Platform parents)
       end
    /\ meta_Name c = ClusterName parents
    /\ cfg_ClusterID c = ClusterID parents
    /\ cfg_BaseDomain c = BaseDomain parents
    /\ cfg_Admin c = {| Email := EmailAddress parents;
                        Password := dep_Password parents;
                        SSHKey := Key parents |}
    /\ cfg_PullSecret c = PullSecret parents.
Proof.
  intros Hk. destruct (Generate_config a parents Hk) as (c' & n & Hs & Hg).
  exists (set_Machines c' (machinePools n n)).
  split; [rewrite Hg; destruct (Marshal _); reflexivity|].
  unfold platformSwitch in Hs.
  destruct (AWS (Platform parents)) as [aws|] eqn:Ea.
  - injection Hs as <- _. cbn. repeat split.
  - destruct (OpenStack (Platform parents)) as [openstack|] eqn:Eo.
    + injection Hs as <- _. cbn. repeat split.
    + destruct (Libvirt (Platform parents)) as [libvirt|] eqn:El;
        [|discriminate Hs].
      injection Hs as <- _. cbn. repeat split.
Qed.

(** X14: with a known platform, [Generate] fails exactly when
    [yaml.Marshal] fails on the config it has built: then it returns
    that error wrapped ("failed to Marshal InstallConfig"), and the
    asset has the new config but still the file it had before, if any;
    otherwise it returns nil and the file holds the marshalled bytes. *)
Theorem Generate_fails_with_Marshal (a : InstallConfig) (parents : Parents) :
  ~ unknownPlatform parents ->
  exists c,
    ic_Config (fst (Generate Marshal a parents)) = Some c
    /\ (forall err,
          Marshal c = inr err ->
          snd (Generate Marshal a parents)
          = Returned (Some (Wrap err "failed to Marshal InstallConfig"))
          /\ Files (fst (Generate Marshal a parents)) = Files a)
    /\ (forall data,
          Marshal c = inl data ->
          snd (Generate Marshal a parents) = Returned None
          /\ Files (fst (Generate Marshal a parents))
             = [ {| Filename := installConfigFilename; Data := data |} ]).
Proof.
  intros Hk. destruct (Generate_config a parents Hk) as (c' & n & _ & Hg).
  exists (set_Machines c' (machinePools n n)). rewrite Hg.
  destruct (Marshal (set_Machines c' (machinePools n n))) as [data | err].
  - split; [reflexivity|]. split.
    + intros err H. discriminate H.
    + intros data' H. injection H as <-. split; reflexivity.
  - split; [reflexivity|]. split.
    + intros err' H. injection H as <-. split; reflexivity.
    + intros data H. discriminate H.
Qed.

(** X15: what [Generate] wrote can be loaded again.  When [Generate]
    returned nil, the fetcher serves the file it made under its name,
    and the decoder gives back the config from the bytes the encoder
    made of it, then [Load], into any asset, finds the state and leaves
    the very asset [Generate] left. *)
Theorem Generate_then_Load (a b : InstallConfig) (parents : Parents)
    (f : FileFetcher) :
  snd (Generate Marshal a parents) = Returned None ->
  (forall file,
     In file (Files (fst (Generate Marshal a parents))) ->
     FetchByName f (Filename file) = inl file) ->
  (forall c data,
     ic_Config (fst (Generate Marshal a parents)) = Some c ->
     Marshal c = inl data -> Unmarshal data = inl c) ->
  Load Unmarshal b f = (fst (Generate Marshal a parents), (true, None)).
Proof.
  unfold Generate, Load, Files.
  destruct (platformSwitch _ _) as [[[c n] m] | msg]; [|discriminate].
  cbn zeta. destruct (Marshal _) as [data | err] eqn:Em; [|discriminate].
  cbn [fst snd ic_File ic_Config]. intros _ Hf Hu.
  specialize (Hf _ (or_introl eq_refl)). cbn [Filename] in Hf.
  rewrite Hf. cbn [Data]. rewrite (Hu _ data eq_refl Em). reflexivity.
Qed.

(** X12: running [Generate] again on the asset it left, with the same
    dependencies, changes nothing and ends in the same way, whether
    the first run returned nil, returned an error or panicked; the
    same holds of [Load] with the same fetcher. *)
Theorem Generate_and_Load_idempotent (a : InstallConfig) (parents : Parents)
    (f : FileFetcher) :
  Generate Marshal (fst (Generate Marshal a parents)) parents
  = Generate Marshal a parents
  /\ Load Unmarshal (fst (Load Unmarshal a f)) f = Load Unmarshal a f.
Proof.
  split.
  - unfold Generate.
    destruct (platformSwitch _ _) as [[[c n] m] | msg]; [|reflexivity].
    cbn zeta. destruct (Marshal _) as [data | err] eqn:Em;
      cbn [fst ic_File]; rewrite ?Em; reflexivity.
  - unfold Load.
    destruct (FetchByName f _) as [file | err] eqn:Ef.
    + destruct (Unmarshal _) eqn:Eu; cbn [fst]; rewrite ?Ef, ?Eu; reflexivity.
    + destruct (IsNotExist err) eqn:Ei; cbn [fst]; rewrite ?Ef, ?Ei;
        reflexivity.
Qed.

End Facts.

End installconfig_more.

Module installconfig_more_examples.

Import installconfig installconfig_terms inputs more_inputs installconfig_more.

(** X13 at a platform asset that has AWS and Libvirt set. *)
Lemma Generate_names_one_platform_witness :
  exists c,
    ic_Config (fst (Generate marshalOK empty (someParents onAWSandLibvirt)))
    = Some c
    /\ (cfg_AWS c = Some tt /\ cfg_OpenStack c = None /\ cfg_Libvirt c = None)
    /\ meta_Name c = "test"
    /\ cfg_ClusterID c = "c1"
    /\ cfg_BaseDomain c = "example.com"
    /\ cfg_Admin c = {| Email := "a@b.c"; Password := "pw";
                        SSHKey := "ssh-rsa AAAA" |}
    /\ cfg_PullSecret c = "{}".
Proof.
  apply (Generate_names_one_platform
           marshalOK empty (someParents onAWSandLibvirt)).
  intros (H & _). discriminate H.
Defined.

(** X14 on Libvirt, with an encoder that fails. *)
Lemma Generate_fails_with_Marshal_witness :
  exists c,
    ic_Config (fst (Generate marshalBroken empty (someParents onLibvirt)))
    = Some c
    /\ (forall err,
          marshalBroken c = inr err ->
          snd (Generate marshalBroken empty (someParents onLibvirt))
          = Returned (Some (Wrap err "failed to Marshal InstallConfig"))
          /\ Files (fst (Generate marshalBroken empty (someParents onLibvirt)))
             = Files (@empty unit unit unit))
    /\ (forall data,
          marshalBroken c = inl data ->
          snd (Generate marshalBroken empty (someParents onLibvirt))
          = Returned None
          /\ Files (fst (Generate marshalBroken empty (someParents onLibvirt)))
             = [ {| Filename := installConfigFilename; Data := data |} ]).
Proof.
  apply (Generate_fails_with_Marshal
           marshalBroken empty (someParents onLibvirt)).
  intros (_ & _ & H). discriminate H.
Defined.

(** X15 on AWS: the directory holds what [Generate] wrote. *)
Lemma Generate_then_Load_witness :
  Load unmarshalAWS empty (dirWith (list_byte_of_string "test"))
  = (fst (Generate marshalOK empty (someParents onAWS)), (true, None)).
Proof.
  apply (Generate_then_Load marshalOK unmarshalAWS empty empty
           (someParents onAWS) (dirWith (list_byte_of_string "test"))).
  - reflexivity.
  - intros file [<- | []]. reflexivity.
  - intros c data Hc Hm. injection Hc as <-. injection Hm as <-. reflexivity.
Defined.

End installconfig_more_examples.

(* ================================================================== *)
(** * Signatures of errors and the two deadlines *)
(* ================================================================== *)

Module signature_more.

Import create create_terms more_terms strings_terms strings_facts.
Import destroyBootstrap_facts destroyBootstrap_more.

Local Open Scope Z_scope.

Lemma last_app_nonempty {A : Type} (l tail : list A) (d : A) :
  tail <> [] -> last (l ++ tail) d = last tail d.
Proof.
  intros Ht. induction l as [|x l IH]; [reflexivity|].
  cbn [app]. destruct (l ++ tail) eqn:E.
  - destruct l; [now contradiction Ht | discriminate E].
  - cbn [last] in *. exact IH.
Qed.

(** A text without the separator is one chunk. *)
Lemma Split_free_of (x : string) (sep : ascii) :
  free_of sep x -> strings.Split x sep = [x].
Proof.
  unfold free_of. induction x as [|c x IH]; intros Hf; [reflexivity|].
  cbn [strings.Split]. cbn in Hf.
  destruct (Ascii.eqb c sep) eqn:Ec.
  - apply Ascii.eqb_eq in Ec. exfalso. apply Hf. now left.
  - rewrite IH; [reflexivity|]. intros H. apply Hf. now right.
Qed.

(** The chunks after a separator do not depend on what is before it. *)
Lemma Split_after (before x : string) (sep : ascii) :
  exists init,
    init <> []
    /\ strings.Split (before ++ String sep x) sep = init ++ strings.Split x sep.
Proof.
  induction before as [|c before IH].
  - exists [EmptyString]. split; [discriminate|]. cbn.
    now rewrite Ascii.eqb_refl.
  - destruct IH as (init & Hn & IH). cbn [append strings.Split]. rewrite IH.
    destruct (Ascii.eqb c sep).
    + exists (EmptyString :: init). split; [discriminate | reflexivity].
    + destruct init as [|i0 init]; [now contradiction Hn|].
      exists (String c i0 :: init). split; [discriminate | reflexivity].
Qed.

Section Cluster.

Context {Watcher : Type}.
Variable cluster : @Cluster Watcher.

(** X18: the closure compares failures by the end of their text only.
    Two errors whose texts end in the same colon-free text after a
    colon have that text as their signature, and when the first of
    them is logged the second, coming right after it, is not, whatever
    differs before the colon. *)
Theorem same_ending_is_silent (p : Poll) (e1 e2 : error)
    (before1 before2 x : string) :
  Error e1 = (before1 ++ String strings.colon x)%string ->
  Error e2 = (before2 ++ String strings.colon x)%string ->
  free_of strings.colon x ->
  errorSuffix e1 = x
  /\ errorSuffix e2 = x
  /\ (snd (onQueryError p e1) = true ->
      snd (onQueryError (fst (onQueryError p e1)) e2) = false).
Proof.
  intros H1 H2 Hx.
  assert (Hs : forall e before,
             Error e = (before ++ String strings.colon x)%string ->
             errorSuffix e = x).
  { intros e before He. unfold errorSuffix. rewrite He.
    destruct (Split_after before x strings.colon) as (init & _ & ->).
    rewrite last_app_nonempty by apply Split_not_nil.
    now rewrite (Split_free_of x strings.colon Hx). }
  pose proof (Hs e1 before1 H1) as S1. pose proof (Hs e2 before2 H2) as S2.
  split; [exact S1|]. split; [exact S2|].
  unfold onQueryError. rewrite S1, S2.
  destruct (negb (String.eqb (previousErrorSuffix p) x)) eqn:Ed;
    cbn [fst snd previousErrorSuffix silenceRemaining].
  - intros _. rewrite String.eqb_refl. reflexivity.
  - destruct (silenceRemaining p - 1 =? 0);
      cbn [fst snd previousErrorSuffix silenceRemaining];
      [|discriminate].
    intros _. rewrite Ed. reflexivity.
Qed.

Variable Until :
  Context -> string -> @WatcherFunc Watcher -> ConditionFunc ->
  R (option WatchEvent * option error).


End Cluster.

End signature_more.

Module signature_more_examples.

Import create create_terms more_terms strings_terms.
Import destroyBootstrap_inputs more_inputs signature_more.

Local Open Scope Z_scope.

(** X18 at two refusals from different addresses. *)
Lemma same_ending_is_silent_witness :
  errorSuffix refused = " connection refused"
  /\ errorSuffix refusedElsewhere = " connection refused"
  /\ (snd (onQueryError pollStart refused) = true ->
      snd (onQueryError (fst (onQueryError pollStart refused)) refusedElsewhere)
      = false).
Proof.
  apply (same_ending_is_silent pollStart refused refusedElsewhere
           "Get https://api.test:6443/version: dial tcp 10.0.0.1:6443: connect"
           "Get https://api.test:6443/version: dial tcp 10.0.0.2:6443: connect"
           " connection refused" eq_refl eq_refl).
  unfold free_of. cbn. intros H.
  repeat (destruct H as [H | H]; [discriminate H|]). exact H.
Defined.


(** That run: both waits end at the tenth minute. *)
Example destroyBootstrap_ten_minutes :
  option_map (fun r => (fst r, now (snd r) / Second,
                        inSeconds (filter isCallUntil (trace (snd r)))))
    (destroyBootstrap (downCluster 298000000000) (specUntil 10) 901
                      tenMinutes world0)
  = Some (Some (Wrap ErrWaitTimeout "waiting for bootstrap-complete"), 600,
          [(600, CallUntil {| deadline := Some (600 * Second) |} "")]).
Proof. vm_compute. reflexivity. Qed.

End signature_more_examples.
